(** * Token-gated agent pipeline: a shallow embedding of [app/]

    The development follows the Python sources file by file:
    - [app/state.py]            the [AgentState] record and [initialize_state];
    - [app/token_accounting.py] [estimate_tokens] and [consume_tokens];
    - [app/nodes/*.py]          the five stage nodes;
    - [app/graph.py]            the router [should_continue], [finalize_node]
                                and the graph wiring.

    Python [int] is [Z]; [float] is [pyfloat], a rational or one of the three
    special values: the code only compares and clamps floats, no arithmetic
    is done on them, and a decimal literal such as [0.85] is read as the
    rational it spells (rounding to the nearest double is not modelled);
    [str] is [string]; the ledger [Dict[str, int]] is a [gmap string Z].
    Calls that leave the process (chat completions, the vector store) are
    answered by an environment and recorded in a call log, so that a stage
    that makes no call is one that leaves the log alone.  The chat service,
    the vector store behind the retriever and the tokenizer always answer:
    what the nodes do when one of them raises is outside this model, and the
    properties below speak of the calls that were answered. *)

From Stdlib Require Import ZArith QArith String List Lia.
From stdpp Require Import gmap strings pretty.

Local Open Scope Z_scope.
#[local] Set Warnings "-register-all".

(** ** Python values *)

Module Py.

(** [float]: finite values are the rationals they denote. *)
Inductive pyfloat : Type :=
  | FFin (q : Q)
  | FPosInf
  | FNegInf
  | FNaN.

(** [a < b] on floats; every comparison with NaN is false. *)
Definition flt (a b : pyfloat) : bool :=
  match a, b with
  | FNaN, _ | _, FNaN => false
  | _, FNegInf => false
  | FNegInf, _ => true
  | FPosInf, _ => false
  | FFin _, FPosInf => true
  | FFin x, FFin y => negb (Qle_bool y x)
  end.

(** [a >= b] on floats. *)
Definition fge (a b : pyfloat) : bool :=
  match a, b with
  | FNaN, _ | _, FNaN => false
  | _, FNegInf => true
  | FNegInf, _ => false
  | FPosInf, _ => true
  | FFin _, FPosInf => false
  | FFin x, FFin y => Qle_bool y x
  end.

(** The builtins [min(a, b)] and [max(a, b)]: the first argument is kept
    unless the second is strictly smaller (resp. larger). *)
Definition py_min (a b : pyfloat) : pyfloat := if flt b a then b else a.
Definition py_max (a b : pyfloat) : pyfloat := if flt a b then b else a.

(** [x or y] on strings: the empty string is falsy. *)
Definition str_or (x y : string) : string :=
  match x with
  | EmptyString => y
  | _ => x
  end.

(** Truthiness of a string and of a list. *)
Definition str_truthy (x : string) : bool :=
  match x with
  | EmptyString => false
  | _ => true
  end.

Definition list_truthy {A : Type} (l : list A) : bool :=
  match l with
  | nil => false
  | _ => true
  end.

(** [sep.join(parts)]. *)
Fixpoint join (sep : string) (parts : list string) : string :=
  match parts with
  | nil => EmptyString
  | p :: nil => p
  | p :: rest => p +:+ sep +:+ join sep rest
  end.

(** What [json.loads] returns. *)
Inductive json : Type :=
  | JNull
  | JBool (b : bool)
  | JInt (n : Z)
  | JFloat (f : pyfloat)
  | JStr (s : string)
  | JList (l : list json)
  | JDict (d : list (string * json)).

(** The exceptions the critic's parsing code can meet. *)
Inductive pyexc : Type :=
  | JSONDecodeError
  | ValueError
  | TypeError
  | AttributeError
  | OverflowError.

(** A computation that returns or raises. *)
Inductive outcome (A : Type) : Type :=
  | Returns (a : A)
  | Raises (e : pyexc).
Arguments Returns {A} a.
Arguments Raises {A} e.

Definition obind {A B : Type} (c : outcome A) (k : A -> outcome B) : outcome B :=
  match c with
  | Returns a => k a
  | Raises e => Raises e
  end.

(** [d[key]] lookup in a decoded object. *)
Fixpoint dict_find (d : list (string * json)) (key : string) : option json :=
  match d with
  | nil => None
  | (k, v) :: rest => if String.eqb k key then Some v else dict_find rest key
  end.

(** [obj.get(key, default)]: only a [dict] has the method. *)
Definition py_get (obj : json) (key : string) (default : json) : outcome json :=
  match obj with
  | JDict d => Returns (match dict_find d key with Some v => v | None => default end)
  | _ => Raises AttributeError
  end.

(** [float(n)] for an [int]: rounding to the nearest double overflows from
    [2^1024 - 2^970] on. *)
Definition float_of_int (n : Z) : outcome pyfloat :=
  if Z.abs n <? 2 ^ 1024 - 2 ^ 970 then Returns (FFin (inject_Z n))
  else Raises OverflowError.

(** [float(v)]: an [int] or a [bool] converts, a [float] is itself, a [str]
    is parsed ([ValueError] when it is not a number), anything else is a
    [TypeError]. *)
Definition py_float (float_of_str : string -> option pyfloat) (v : json)
  : outcome pyfloat :=
  match v with
  | JInt n => float_of_int n
  | JFloat f => Returns f
  | JBool b => Returns (FFin (if b then 1 else 0))
  | JStr s =>
      match float_of_str s with
      | Some f => Returns f
      | None => Raises ValueError
      end
  | JNull | JList _ | JDict _ => Raises TypeError
  end.

(** The double quote and the line feed, for the texts that contain them. *)
Definition dq : string := String (Ascii.ascii_of_nat 34) EmptyString.
Definition nl : string := String (Ascii.ascii_of_nat 10) EmptyString.

End Py.
Export Py.

(** ** [app/state.py] *)

Module State.

(** [AgentState].  [initialize_state] sets every key and no operation removes
    one, so the record has every field and the defaults of [state.get] are
    never used. *)
Record AgentState : Type := mkState {
  user_query : string;
  plan : string;
  retrieved_chunks : list string;
  draft_answer : string;
  final_answer : string;
  total_token_budget : Z;
  remaining_tokens : Z;
  tokens_used : gmap string Z;
  step_count : Z;
  max_steps : Z;
  quality_score : pyfloat;
  status : string
}.

(** Assignments [state[key] = v]. *)
Definition set_plan (s : AgentState) (v : string) : AgentState :=
  mkState (user_query s) v (retrieved_chunks s) (draft_answer s) (final_answer s)
    (total_token_budget s) (remaining_tokens s) (tokens_used s) (step_count s)
    (max_steps s) (quality_score s) (status s).

Definition set_retrieved_chunks (s : AgentState) (v : list string) : AgentState :=
  mkState (user_query s) (plan s) v (draft_answer s) (final_answer s)
    (total_token_budget s) (remaining_tokens s) (tokens_used s) (step_count s)
    (max_steps s) (quality_score s) (status s).

Definition set_draft_answer (s : AgentState) (v : string) : AgentState :=
  mkState (user_query s) (plan s) (retrieved_chunks s) v (final_answer s)
    (total_token_budget s) (remaining_tokens s) (tokens_used s) (step_count s)
    (max_steps s) (quality_score s) (status s).

Definition set_final_answer (s : AgentState) (v : string) : AgentState :=
  mkState (user_query s) (plan s) (retrieved_chunks s) (draft_answer s) v
    (total_token_budget s) (remaining_tokens s) (tokens_used s) (step_count s)
    (max_steps s) (quality_score s) (status s).

Definition set_remaining_tokens (s : AgentState) (v : Z) : AgentState :=
  mkState (user_query s) (plan s) (retrieved_chunks s) (draft_answer s) (final_answer s)
    (total_token_budget s) v (tokens_used s) (step_count s)
    (max_steps s) (quality_score s) (status s).

Definition set_tokens_used (s : AgentState) (v : gmap string Z) : AgentState :=
  mkState (user_query s) (plan s) (retrieved_chunks s) (draft_answer s) (final_answer s)
    (total_token_budget s) (remaining_tokens s) v (step_count s)
    (max_steps s) (quality_score s) (status s).

Definition set_step_count (s : AgentState) (v : Z) : AgentState :=
  mkState (user_query s) (plan s) (retrieved_chunks s) (draft_answer s) (final_answer s)
    (total_token_budget s) (remaining_tokens s) (tokens_used s) v
    (max_steps s) (quality_score s) (status s).

Definition set_quality_score (s : AgentState) (v : pyfloat) : AgentState :=
  mkState (user_query s) (plan s) (retrieved_chunks s) (draft_answer s) (final_answer s)
    (total_token_budget s) (remaining_tokens s) (tokens_used s) (step_count s)
    (max_steps s) v (status s).

Definition set_status (s : AgentState) (v : string) : AgentState :=
  mkState (user_query s) (plan s) (retrieved_chunks s) (draft_answer s) (final_answer s)
    (total_token_budget s) (remaining_tokens s) (tokens_used s) (step_count s)
    (max_steps s) (quality_score s) v.

Definition initialize_state (user_query : string) (total_token_budget max_steps : Z)
  : AgentState :=
  {| user_query := user_query;
     plan := EmptyString;
     retrieved_chunks := nil;
     draft_answer := EmptyString;
     final_answer := EmptyString;
     total_token_budget := total_token_budget;
     remaining_tokens := total_token_budget;
     tokens_used := ∅;
     step_count := 0;
     max_steps := max_steps;
     quality_score := FFin 0;
     status := "INIT" |}.

End State.
Export State.

(** ** The outside world *)

Module World.

(** [client.chat.completions.create(model, messages, max_tokens, temperature)]:
    the system and user messages and the two sampling parameters. *)
Record ChatRequest : Type := mkChat {
  system_content : string;
  user_content : string;
  max_tokens : Z;
  temperature : Q
}.

(** The part of a completion the nodes read: [choices[0].message.content]
    (which may be [None]) and [usage] (which may be absent). *)
Record Usage : Type := mkUsage {
  prompt_tokens : Z;
  completion_tokens : Z
}.

Record Completion : Type := mkCompletion {
  content : option string;
  usage : option Usage
}.

(** One call that leaves the process. *)
Inductive Call : Type :=
  | ChatCall (req : ChatRequest)
  | SearchCall (query : string) (k : Z).

(** The collaborators of [app/]: the chat service and the vector store answer
    a request in the light of the calls made so far; [json.loads], [float] on
    a [str] and the tokenizer are functions of their argument. *)
Record Env : Type := mkEnv {
  chat_create : list Call -> ChatRequest -> Completion;
  similarity_search : list Call -> string -> Z -> list string;
  json_loads : string -> option json;
  float_of_str : string -> option pyfloat;
  encode_len : string -> nat
}.

(** A node: it reads and extends the call log, and returns or raises. *)
Definition M (A : Type) : Type := list Call -> outcome (A * list Call).

Definition ret {A : Type} (a : A) : M A := fun log => Returns (a, log).

Definition bind {A B : Type} (c : M A) (k : A -> M B) : M B :=
  fun log =>
    match c log with
    | Returns (a, log') => k a log'
    | Raises e => Raises e
    end.

Definition lift {A : Type} (c : outcome A) : M A :=
  fun log =>
    match c with
    | Returns a => Returns (a, log)
    | Raises e => Raises e
    end.

(** The two calls; each appends itself to the log. *)
Definition chat (env : Env) (req : ChatRequest) : M Completion :=
  fun log => Returns (chat_create env log req, log ++ ChatCall req :: nil).

Definition search (env : Env) (query : string) (k : Z) : M (list string) :=
  fun log => Returns (similarity_search env log query k, log ++ SearchCall query k :: nil).

End World.
Export World.

Notation "x <- c ;; k" := (bind c (fun x => k))
  (at level 100, c at next level, right associativity).

(** ** [app/token_accounting.py] *)

Module Accounting.

Definition estimate_tokens (env : Env) (text : string) : Z :=
  if str_truthy text then Z.of_nat (encode_len env text) else 0.

(** [tokens_used.get(node_name, 0)]. *)
Definition used (tokens_used : gmap string Z) (node_name : string) : Z :=
  default 0 (tokens_used !! node_name).

Definition consume_tokens (state : AgentState) (node_name : string)
    (estimated_tokens : Z) : AgentState :=
  let remaining := remaining_tokens state in
  let remaining := remaining - Z.max 0 estimated_tokens in
  let state := set_remaining_tokens state (Z.max remaining 0) in
  let tokens_used := tokens_used state in
  let prev := used tokens_used node_name in
  let tokens_used := <[node_name := prev + Z.max 0 estimated_tokens]> tokens_used in
  set_tokens_used state tokens_used.

(** [sum(tokens_used.values())]. *)
Definition sum_values (m : gmap string Z) : Z :=
  map_fold (fun _ v acc => v + acc) 0 m.

End Accounting.
Export Accounting.

(** ** [app/nodes/*.py] *)

Module Nodes.

Section WithEnv.

Context (env : Env).

(** The reply text [response.choices[0].message.content or fallback]. *)
Definition content_or (response : Completion) (fallback : string) : string :=
  match content response with
  | Some text => str_or text fallback
  | None => fallback
  end.

(** [usage.prompt_tokens + usage.completion_tokens] when the service reports
    usage, the tokenizer's estimate of [text] otherwise. *)
Definition total_tokens_of (response : Completion) (text : string) : Z :=
  match usage response with
  | Some u => prompt_tokens u + completion_tokens u
  | None => estimate_tokens env text
  end.

(** *** planner.py *)

Definition PLANNER_REQUIRED_BUDGET : Z := 800.

Definition PLANNER_SYSTEM_PROMPT : string :=
  "You are a concise planning assistant." +:+ nl +:+
  "Given a user query, produce a brief execution plan (2-4 steps) for answering it."
  +:+ nl +:+
  "Keep your plan under 150 words. Be direct and actionable.".

Definition planner_node (state : AgentState) : M AgentState :=
  if remaining_tokens state <? PLANNER_REQUIRED_BUDGET then
    ret (set_status state "INSUFFICIENT_BUDGET_FOR_PLANNING")
  else
    let user_query := user_query state in
    response <- chat env
      {| system_content := PLANNER_SYSTEM_PROMPT;
         user_content := "Create a plan to answer: " +:+ user_query;
         max_tokens := 300;
         temperature := 3 # 10 |};;
    let plan_text := content_or response EmptyString in
    let state := set_plan state plan_text in
    let total_tokens :=
      total_tokens_of response (PLANNER_SYSTEM_PROMPT +:+ user_query +:+ plan_text) in
    let state := consume_tokens state "planner" total_tokens in
    ret (set_step_count state (step_count state + 1)).

(** *** retriever.py *)

Definition MIN_GENERATION_BUDGET : Z := 3000.
Definition TOKENS_PER_CHUNK : Z := 400.

Definition retriever_node (state : AgentState) : M AgentState :=
  let remaining := remaining_tokens state in
  let available_for_context := remaining - MIN_GENERATION_BUDGET in
  if available_for_context <=? 0 then
    ret (set_retrieved_chunks state nil)
  else
    let top_k := Z.max 1 (available_for_context / TOKENS_PER_CHUNK) in
    let top_k := Z.min top_k 10 in
    let user_query := user_query state in
    chunks <- search env user_query top_k;;
    let state := set_retrieved_chunks state chunks in
    let chunk_text := join (nl +:+ nl) chunks in
    let estimated_cost :=
      if list_truthy chunks then estimate_tokens env chunk_text else 0 in
    ret (consume_tokens state "retriever" estimated_cost).

(** *** generator.py *)

Definition GENERATOR_REQUIRED_BUDGET : Z := 2500.

Definition GENERATOR_SYSTEM_PROMPT : string :=
  "You are a helpful assistant that answers questions based on the provided context."
  +:+ nl +:+
  "Use the context to give accurate, well-structured answers." +:+ nl +:+
  "If the context doesn't contain relevant information, say so clearly." +:+ nl +:+
  "Be concise but thorough.".

Definition generator_node (state : AgentState) : M AgentState :=
  if remaining_tokens state <? GENERATOR_REQUIRED_BUDGET then
    ret (set_status state "INSUFFICIENT_BUDGET_FOR_GENERATION")
  else
    let user_query := user_query state in
    let chunks := retrieved_chunks state in
    let plan := plan state in
    let context_section :=
      if list_truthy chunks then
        "## Retrieved Context" +:+ nl +:+ nl +:+
        join (nl +:+ nl +:+ "---" +:+ nl +:+ nl) chunks
      else "No context was retrieved. Answer based on general knowledge." in
    let user_message :=
      "## Plan" +:+ nl +:+
      plan +:+ nl +:+
      nl +:+
      context_section +:+ nl +:+
      nl +:+
      "## Question" +:+ nl +:+
      user_query +:+ nl +:+
      nl +:+
      "Please provide a comprehensive answer based on the above context and plan." in
    response <- chat env
      {| system_content := GENERATOR_SYSTEM_PROMPT;
         user_content := user_message;
         max_tokens := 1000;
         temperature := 5 # 10 |};;
    let answer_text := content_or response EmptyString in
    let state := set_draft_answer state answer_text in
    let total_tokens :=
      total_tokens_of response (GENERATOR_SYSTEM_PROMPT +:+ user_message +:+ answer_text) in
    ret (consume_tokens state "generator" total_tokens).

(** *** critic.py *)

Definition CRITIC_REQUIRED_BUDGET : Z := 800.

Definition CRITIC_SYSTEM_PROMPT : string :=
  "You are a quality evaluator for AI-generated answers." +:+ nl +:+
  "Evaluate the answer on these criteria:" +:+ nl +:+
  "1. Relevance to the question" +:+ nl +:+
  "2. Accuracy based on provided context" +:+ nl +:+
  "3. Completeness" +:+ nl +:+
  "4. Clarity" +:+ nl +:+
  nl +:+
  "Respond with a JSON object containing:" +:+ nl +:+
  "- " +:+ dq +:+ "score" +:+ dq +:+ ": a number between 0.0 and 1.0" +:+ nl +:+
  "- " +:+ dq +:+ "feedback" +:+ dq +:+ ": a brief explanation (1-2 sentences)" +:+ nl +:+
  nl +:+
  "Example response:" +:+ nl +:+
  "{" +:+ dq +:+ "score" +:+ dq +:+ ": 0.85, " +:+ dq +:+ "feedback" +:+ dq +:+ ": " +:+
  dq +:+ "Good coverage of the topic with clear explanations." +:+ dq +:+ "}".

(** The neutral default score. *)
Definition DEFAULT_SCORE : pyfloat := FFin (7 # 10).

(** The handler [except (json.JSONDecodeError, ValueError, TypeError)]. *)
Definition caught (e : pyexc) : bool :=
  match e with
  | JSONDecodeError | ValueError | TypeError => true
  | AttributeError | OverflowError => false
  end.

(** The body of the [try]: decode, read the score, convert, clamp. *)
Definition score_attempt (critic_response : string) : outcome pyfloat :=
  obind (match json_loads env critic_response with
         | Some parsed => Returns parsed
         | None => Raises JSONDecodeError
         end) (fun parsed =>
  obind (py_get parsed "score" (JFloat DEFAULT_SCORE)) (fun v =>
  obind (py_float (float_of_str env) v) (fun score =>
  Returns (py_max (FFin 0) (py_min (FFin 1) score))))).

(** The [try ... except] as a whole. *)
Definition parse_score (critic_response : string) : outcome pyfloat :=
  match score_attempt critic_response with
  | Returns score => Returns score
  | Raises e => if caught e then Returns DEFAULT_SCORE else Raises e
  end.

Definition critic_node (state : AgentState) : M AgentState :=
  if remaining_tokens state <? CRITIC_REQUIRED_BUDGET then
    ret (set_quality_score state DEFAULT_SCORE)
  else
    let user_query := user_query state in
    let draft_answer := draft_answer state in
    let chunks := retrieved_chunks state in
    let context_summary :=
      if list_truthy chunks then pretty (length chunks) +:+ " chunks retrieved"
      else "No context" in
    let user_message :=
      "## Original Question" +:+ nl +:+
      user_query +:+ nl +:+
      nl +:+
      "## Context Available" +:+ nl +:+
      context_summary +:+ nl +:+
      nl +:+
      "## Generated Answer" +:+ nl +:+
      draft_answer +:+ nl +:+
      nl +:+
      "Please evaluate this answer and provide a quality score." in
    response <- chat env
      {| system_content := CRITIC_SYSTEM_PROMPT;
         user_content := user_message;
         max_tokens := 150;
         temperature := 2 # 10 |};;
    let critic_response := content_or response EmptyString in
    score <- lift (parse_score critic_response);;
    let state := set_quality_score state score in
    let total_tokens :=
      total_tokens_of response (CRITIC_SYSTEM_PROMPT +:+ user_message +:+ critic_response) in
    ret (consume_tokens state "critic" total_tokens).

(** *** summarizer.py *)

Definition SUMMARIZER_BUDGET : Z := 400.

Definition SUMMARIZER_SYSTEM_PROMPT : string :=
  "You are a summarization assistant." +:+ nl +:+
  "Given a draft answer, produce a concise summary that captures the key points."
  +:+ nl +:+
  "Keep your summary under 100 words.".

Definition FALLBACK_ANSWER : string :=
  "Unable to generate an answer due to budget constraints.".

Definition summarizer_node (state : AgentState) : M AgentState :=
  let draft := draft_answer state in
  state <-
    (if str_truthy draft && (SUMMARIZER_BUDGET <=? remaining_tokens state) then
       response <- chat env
         {| system_content := SUMMARIZER_SYSTEM_PROMPT;
            user_content := "Summarize this answer:" +:+ nl +:+ nl +:+ draft;
            max_tokens := 150;
            temperature := 3 # 10 |};;
       let summary := content_or response draft in
       let state := set_final_answer state summary in
       let total_tokens :=
         total_tokens_of response (SUMMARIZER_SYSTEM_PROMPT +:+ draft +:+ summary) in
       ret (consume_tokens state "summarizer" total_tokens)
     else if str_truthy draft then
       ret (set_final_answer state draft)
     else
       ret (set_final_answer state FALLBACK_ANSWER));;
  ret (set_status state "COMPLETED_WITH_SUMMARY").

End WithEnv.

End Nodes.
Export Nodes.

(** ** [app/graph.py] *)

Module Graph.

Definition BUDGET_THRESHOLD : Z := 500.
Definition QUALITY_THRESHOLD : pyfloat := FFin (85 # 100).

(** The three literals [should_continue] can return. *)
Inductive Decision : Type :=
  | GoEnd
  | GoLoop
  | GoSummarize.

Definition should_continue (state : AgentState) : Decision :=
  let remaining := remaining_tokens state in
  let quality := quality_score state in
  let step_count := step_count state in
  let max_steps := max_steps state in
  let status := status state in
  if String.prefix "INSUFFICIENT_BUDGET" status then GoSummarize
  else if remaining <=? BUDGET_THRESHOLD then GoSummarize
  else if fge quality QUALITY_THRESHOLD then GoEnd
  else if max_steps <=? step_count then GoSummarize
  else GoLoop.

Definition finalize_node (state : AgentState) : AgentState :=
  let state := set_final_answer state (draft_answer state) in
  set_status state "COMPLETED".

Section WithEnv.

Context (env : Env).

(** The linear edges planner -> retriever -> generator -> critic. *)
Definition critique_pass (state : AgentState) : M AgentState :=
  state <- planner_node env state;;
  state <- retriever_node env state;;
  state <- generator_node env state;;
  critic_node env state.

(** The compiled graph: a pass, then the conditional edge out of the critic.
    The result carries the number of times the router was evaluated.  The
    fuel is the number of passes the graph library lets a run make before its
    recursion limit stops it (the limit itself is set outside [app/]); [None]
    is a run stopped that way. *)
Fixpoint invoke (fuel : nat) (state : AgentState) : M (option (AgentState * nat)) :=
  match fuel with
  | O => ret None
  | S fuel =>
      state <- critique_pass state;;
      match should_continue state with
      | GoEnd => ret (Some (finalize_node state, 1%nat))
      | GoSummarize =>
          state <- summarizer_node env state;;
          ret (Some (state, 1%nat))
      | GoLoop =>
          r <- invoke fuel state;;
          ret (match r with
               | Some (final, n) => Some (final, S n)
               | None => None
               end)
      end
  end.

End WithEnv.

End Graph.
Export Graph.

(** ** A concrete environment

    One token per character, a chat service that reports a usage of 100 + 50
    tokens and answers the critic with a fixed text, a vector store that
    returns [k] copies of one chunk, and a decoder that knows three texts. *)

Module Sample.

(** The text [{"score": 0.9}] and a low-score sibling. *)
Definition SCORE_09 : string := "{" +:+ dq +:+ "score" +:+ dq +:+ ": 0.9}".
Definition SCORE_05 : string := "{" +:+ dq +:+ "score" +:+ dq +:+ ": 0.5}".

Definition sample_json_loads (text : string) : option json :=
  if String.eqb text SCORE_09 then Some (JDict (("score", JFloat (FFin (9 # 10))) :: nil))
  else if String.eqb text SCORE_05 then Some (JDict (("score", JFloat (FFin (5 # 10))) :: nil))
  else if String.eqb text "[0.9]" then Some (JList (JFloat (FFin (9 # 10)) :: nil))
  else None.

(** The service answers critic requests with [critic_text] and every other
    request with a fixed sentence. *)
Definition sample_chat (critic_text : string) (log : list Call) (req : ChatRequest)
  : Completion :=
  {| content :=
       Some (if String.eqb (system_content req) CRITIC_SYSTEM_PROMPT then critic_text
             else "Lorem ipsum.");
     usage := Some {| prompt_tokens := 100; completion_tokens := 50 |} |}.

Definition sample_env (critic_text : string) : Env :=
  {| chat_create := sample_chat critic_text;
     similarity_search := fun _ _ k => repeat "chunk" (Z.to_nat k);
     json_loads := sample_json_loads;
     float_of_str := fun _ => None;
     encode_len := String.length |}.

End Sample.
Export Sample.

(** ** Vocabulary of the properties *)

Module Props.

(** The ledger invariant of the data model. *)
Definition ledger_ok (s : AgentState) : Prop :=
  remaining_tokens s = Z.max 0 (total_token_budget s - sum_values (tokens_used s))
  /\ 0 <= remaining_tokens s.

(** The status codes the program writes. *)
Definition STATUS_VOCABULARY : list string :=
  "INIT" :: "INSUFFICIENT_BUDGET_FOR_PLANNING" :: "INSUFFICIENT_BUDGET_FOR_GENERATION"
  :: "COMPLETED" :: "COMPLETED_WITH_SUMMARY" :: nil.

Definition degradation_code (status : string) : Prop :=
  status = "INSUFFICIENT_BUDGET_FOR_PLANNING"
  \/ status = "INSUFFICIENT_BUDGET_FOR_GENERATION".

Definition terminal (status : string) : Prop :=
  status = "COMPLETED" \/ status = "COMPLETED_WITH_SUMMARY".

(** [clamp x lo hi] as the retriever bound words it. *)
Definition clamp (x lo hi : Z) : Z := Z.max lo (Z.min x hi).

(** Two states that differ at most in [status]. *)
Definition same_besides_status (s s' : AgentState) : Prop :=
  user_query s' = user_query s
  /\ plan s' = plan s
  /\ retrieved_chunks s' = retrieved_chunks s
  /\ draft_answer s' = draft_answer s
  /\ final_answer s' = final_answer s
  /\ total_token_budget s' = total_token_budget s
  /\ remaining_tokens s' = remaining_tokens s
  /\ tokens_used s' = tokens_used s
  /\ step_count s' = step_count s
  /\ max_steps s' = max_steps s
  /\ quality_score s' = quality_score s.

(** What an operation can do to the fields the invariants read: it leaves
    the budget ceiling and [max_steps] alone, it never lowers [step_count], it
    either leaves the ledger alone or consumes once, and it keeps [status]
    within the vocabulary. *)
Definition ledger_move (s s' : AgentState) : Prop :=
  total_token_budget s' = total_token_budget s
  /\ max_steps s' = max_steps s
  /\ step_count s <= step_count s'
  /\ ((remaining_tokens s' = remaining_tokens s /\ tokens_used s' = tokens_used s)
      \/ exists name cost,
           remaining_tokens s' = remaining_tokens (consume_tokens s name cost)
           /\ tokens_used s' = tokens_used (consume_tokens s name cost))
  /\ (In (status s) STATUS_VOCABULARY -> In (status s') STATUS_VOCABULARY).

Section WithEnv.

Context (env : Env).

(** One operation on the state: a node run against some call log, the
    finalizer, or a direct ledger consumption. *)
Inductive op_step : AgentState -> AgentState -> Prop :=
  | step_planner s log s' log' :
      planner_node env s log = Returns (s', log') -> op_step s s'
  | step_retriever s log s' log' :
      retriever_node env s log = Returns (s', log') -> op_step s s'
  | step_generator s log s' log' :
      generator_node env s log = Returns (s', log') -> op_step s s'
  | step_critic s log s' log' :
      critic_node env s log = Returns (s', log') -> op_step s s'
  | step_summarizer s log s' log' :
      summarizer_node env s log = Returns (s', log') -> op_step s s'
  | step_finalize s :
      op_step s (finalize_node s)
  | step_consume s name cost :
      op_step s (consume_tokens s name cost).

(** The states a sequence of operations reaches from [s0]. *)
Definition reachable (s0 : AgentState) : AgentState -> Prop := rtc op_step s0.

(** The critic's score parsing returns on every reply of the chat service. *)
Definition critic_parses : Prop :=
  forall log req,
    exists score,
      parse_score env (content_or (chat_create env log req) EmptyString) = Returns score.

End WithEnv.

End Props.
Export Props.

(** ** [app/config.py] *)

Module Config.

(** [Settings]; the service reads them from the process environment. *)
Record Settings : Type := mkSettings {
  openai_api_key : string;
  openai_model_name : string;
  openai_embedding_model : string;
  default_token_budget : Z;
  default_max_steps : Z;
  chroma_persist_dir : string
}.

(** The settings when only the API key is given: every other field takes its
    [Field] default. *)
Definition field_defaults (api_key : string) : Settings :=
  {| openai_api_key := api_key;
     openai_model_name := "gpt-4o";
     openai_embedding_model := "text-embedding-3-small";
     default_token_budget := 10000;
     default_max_steps := 5;
     chroma_persist_dir := "./chroma_db" |}.

End Config.
Export Config.

(** ** [app/token_accounting.py]: the encoder cache *)

Module Tokenizer.

(** [encoder.encode]: a text to its tokens, on the texts the encoder accepts
    (what it raises on a text it refuses is not part of this model). *)
Definition Encoding : Type := string -> list nat.

(** The module-level dictionary [_ENCODERS], together with the model names
    handed to [tiktoken.encoding_for_model] so far. *)
Record Encoders : Type := mkEncoders {
  ENCODERS : gmap string Encoding;
  requested : list string
}.

Section WithTiktoken.

(** [tiktoken.encoding_for_model]; [None] stands for its [KeyError] on a
    model it does not know. *)
Context (encoding_for_model : string -> option Encoding) (settings : Settings).

Definition _get_encoder (model : string) (st : Encoders) : option (Encoding * Encoders) :=
  match ENCODERS st !! model with
  | Some encoder => Some (encoder, st)
  | None =>
      match encoding_for_model model with
      | Some encoder =>
          Some (encoder,
                {| ENCODERS := <[model := encoder]> (ENCODERS st);
                   requested := requested st ++ model :: nil |})
      | None => None
      end
  end.

(** [estimate_tokens(text, model=None)] with the cache threaded through. *)
Definition estimate_tokens (text : string) (model : option string) (st : Encoders)
  : option (Z * Encoders) :=
  if str_truthy text then
    let model_name :=
      match model with
      | Some m => str_or m (openai_model_name settings)
      | None => openai_model_name settings
      end in
    match _get_encoder model_name st with
    | Some (encoder, st) => Some (Z.of_nat (length (encoder text)), st)
    | None => None
    end
  else Some (0, st).

End WithTiktoken.

(** A cache that only holds what tiktoken gives, and that was filled through
    [_get_encoder]: every requested model is cached and was requested once. *)
Definition coherent (encoding_for_model : string -> option Encoding) (st : Encoders)
  : Prop :=
  (forall model encoder,
     ENCODERS st !! model = Some encoder -> encoding_for_model model = Some encoder)
  /\ (forall model, In model (requested st) -> is_Some (ENCODERS st !! model))
  /\ List.NoDup (requested st).

End Tokenizer.

(** ** [app/rag/embeddings.py] and [app/rag/vector_store.py] *)

Module Rag.

(** An embedding is passed from the embedding model to the collection and is
    never computed with. *)
Definition Embedding : Type := list Q.
Definition Metadata : Type := list (string * json).

(** The calls that reach the embedding model or the Chroma client. *)
Inductive RagCall : Type :=
  | EmbedDocuments (texts : list string)
  | EmbedQuery (text : string)
  | CollectionCount
  | CollectionAdd (ids documents : list string) (embeddings : list Embedding)
      (metadatas : option (list Metadata))
  | CollectionQuery (query_embeddings : list Embedding) (n_results : Z)
  | ClientPersist.

(** The collaborators.  The embedding model and the collection answer every
    call.  Of the dictionary [collection.query] returns only the value under
    ["documents"] is read; [None] is a result without that key.
    [self._client.persist()] returns or raises, as the client at hand decides
    (a client without that method raises [AttributeError]); the log records
    that it was asked for. *)
Record RagEnv : Type := mkRagEnv {
  model_embed_documents : list RagCall -> list string -> list Embedding;
  model_embed_query : list RagCall -> string -> Embedding;
  collection_count : list RagCall -> nat;
  collection_query : list RagCall -> list Embedding -> Z -> option (list (list string));
  client_persist : list RagCall -> outcome unit
}.

(** A store operation returns a value, raises [IndexError], or raises what
    the client raised; either way the calls attempted so far stay on the
    log. *)
Inductive rag_result (A : Type) : Type :=
  | Done (a : A)
  | IndexError
  | Raised (e : pyexc).
Arguments Done {A} a.
Arguments IndexError {A}.
Arguments Raised {A} e.

Definition R (A : Type) : Type := list RagCall -> rag_result A * list RagCall.

Definition rret {A : Type} (a : A) : R A := fun log => (Done a, log).

Definition rbind {A B : Type} (c : R A) (k : A -> R B) : R B :=
  fun log =>
    match c log with
    | (Done a, log') => k a log'
    | (IndexError, log') => (IndexError, log')
    | (Raised e, log') => (Raised e, log')
    end.

Definition rcall {A : Type} (call : RagCall) (answer : list RagCall -> A) : R A :=
  fun log => (Done (answer log), log ++ call :: nil).

(** A call that may raise. *)
Definition rcall_raising {A : Type} (call : RagCall) (answer : list RagCall -> outcome A)
  : R A :=
  fun log =>
    match answer log with
    | Returns a => (Done a, log ++ call :: nil)
    | Raises e => (Raised e, log ++ call :: nil)
    end.

Section WithRagEnv.

Context (renv : RagEnv).

(** *** embeddings.py *)

Definition embed_texts (texts : list string) : R (list Embedding) :=
  if list_truthy texts then
    rcall (EmbedDocuments texts) (fun log => model_embed_documents renv log texts)
  else rret nil.

Definition embed_query (text : string) : R Embedding :=
  if str_truthy text then
    rcall (EmbedQuery text) (fun log => model_embed_query renv log text)
  else rret nil.

(** *** vector_store.py *)

(** The comprehension [[f"doc-{self._collection.count()}-{i}" for i in ...]],
    from index [i] on for [n] more elements: [count] is asked once per
    element. *)
Fixpoint make_ids (i n : nat) : R (list string) :=
  match n with
  | O => rret nil
  | S n =>
      rbind (rcall CollectionCount (collection_count renv)) (fun count =>
      rbind (make_ids (S i) n) (fun rest =>
      rret (("doc-" +:+ pretty count +:+ "-" +:+ pretty i) :: rest)))
  end.

Definition add_texts (texts : list string) (metadatas : option (list Metadata))
  : R unit :=
  if list_truthy texts then
    rbind (embed_texts texts) (fun embeddings =>
    rbind (make_ids 0 (length texts)) (fun ids =>
    rbind (rcall (CollectionAdd ids texts embeddings metadatas) (fun _ => tt)) (fun _ =>
    rcall_raising ClientPersist (client_persist renv))))
  else rret tt.

Definition similarity_search (query : string) (k : Z) : R (list string) :=
  if str_truthy query then
    rbind (embed_query query) (fun query_embedding =>
    if list_truthy query_embedding then
      rbind (rcall (CollectionQuery (query_embedding :: nil) k)
               (fun log => collection_query renv log (query_embedding :: nil) k))
        (fun results =>
           match default (nil :: nil) results with
           | docs :: _ => rret docs
           | nil => fun log => (IndexError, log)
           end)
    else rret nil)
  else rret nil.

End WithRagEnv.

End Rag.

(** ** [app/main.py] *)

Module Api.

(** What an endpoint answers: a body, or an [HTTPException]. *)
Inductive http (A : Type) : Type :=
  | Ok200 (body : A)
  | HTTPException (status_code : Z) (detail : string).
Arguments Ok200 {A} body.
Arguments HTTPException {A} status_code detail.

Record QueryRequest : Type := mkQueryRequest {
  req_query : string;
  req_token_budget : option Z;
  req_max_steps : option Z
}.

Record QueryResponse : Type := mkQueryResponse {
  resp_answer : string;
  resp_status : string;
  resp_tokens_used : gmap string Z;
  resp_total_tokens : Z;
  resp_steps_executed : Z
}.

Record DocumentsRequest : Type := mkDocumentsRequest {
  req_texts : list string;
  req_metadatas : option (list Rag.Metadata)
}.

Record DocumentsResponse : Type := mkDocumentsResponse {
  resp_message : string;
  resp_count : Z
}.

(** [x or d] for an optional integer: [None] and 0 are falsy. *)
Definition int_or (x : option Z) (d : Z) : Z :=
  match x with
  | Some v => if v =? 0 then d else v
  | None => d
  end.

(** What [graph.invoke(initial_state)] comes to: the final state, an
    exception raised inside a node, or the graph library's recursion error. *)
Inductive run_result : Type :=
  | Finished (final_state : AgentState) (log : list Call)
  | NodeRaised (e : pyexc)
  | RecursionLimit.

(** [graph.invoke(initial_state)], for a graph library that allows
    [passes_allowed] passes. *)
Definition graph_invoke (env : Env) (passes_allowed : nat) (state : AgentState)
    (log : list Call) : run_result :=
  match invoke env passes_allowed state log with
  | Returns (Some (final_state, _), log') => Finished final_state log'
  | Returns (None, _) => RecursionLimit
  | Raises e => NodeRaised e
  end.

(** [POST /query]; [str_exc] is [str(e)] and [str_limit] the text of the
    recursion error.  Every exception of the run is answered with 500. *)
Definition query (settings : Settings) (env : Env) (passes_allowed : nat)
    (str_exc : pyexc -> string) (str_limit : string)
    (request : QueryRequest) (log : list Call) : http QueryResponse :=
  let token_budget := int_or (req_token_budget request) (default_token_budget settings) in
  let max_steps := int_or (req_max_steps request) (default_max_steps settings) in
  let initial_state := initialize_state (req_query request) token_budget max_steps in
  match graph_invoke env passes_allowed initial_state log with
  | NodeRaised e => HTTPException 500 ("Execution error: " +:+ str_exc e)
  | RecursionLimit => HTTPException 500 ("Execution error: " +:+ str_limit)
  | Finished final_state _ =>
      let answer :=
        str_or (final_answer final_state) (str_or (draft_answer final_state) EmptyString) in
      let status := status final_state in
      let tokens_used := tokens_used final_state in
      let total_tokens := sum_values tokens_used in
      let steps_executed := step_count final_state in
      Ok200 {| resp_answer := answer;
               resp_status := status;
               resp_tokens_used := tokens_used;
               resp_total_tokens := total_tokens;
               resp_steps_executed := steps_executed |}
  end.

(** [POST /documents]; [str_exc] is [str(e)].  Every exception of
    [add_texts] is answered with 500. *)
Definition ingest_documents (renv : Rag.RagEnv) (str_exc : pyexc -> string)
    (request : DocumentsRequest) (log : list Rag.RagCall)
  : http DocumentsResponse * list Rag.RagCall :=
  if list_truthy (req_texts request) then
    match Rag.add_texts renv (req_texts request) (req_metadatas request) log with
    | (Rag.Done _, log') =>
        (Ok200 {| resp_message := "Documents ingested successfully";
                  resp_count := Z.of_nat (length (req_texts request)) |},
         log')
    | (Rag.IndexError, log') =>
        (HTTPException 500 "Ingestion error: list index out of range", log')
    | (Rag.Raised e, log') =>
        (HTTPException 500 ("Ingestion error: " +:+ str_exc e), log')
    end
  else (HTTPException 400 "No texts provided", log).

End Api.

(** ** The state as the dictionary it is

    [AgentState] is a [TypedDict] with [total=False]: any key may be missing,
    and the functions of [graph.py] and [token_accounting.py] read through
    [state.get(key, default)]. *)

Module Raw.

Record RawState : Type := mkRaw {
  k_user_query : option string;
  k_plan : option string;
  k_retrieved_chunks : option (list string);
  k_draft_answer : option string;
  k_final_answer : option string;
  k_total_token_budget : option Z;
  k_remaining_tokens : option Z;
  k_tokens_used : option (gmap string Z);
  k_step_count : option Z;
  k_max_steps : option Z;
  k_quality_score : option pyfloat;
  k_status : option string
}.

(** A state with every key set. *)
Definition of_state (s : AgentState) : RawState :=
  {| k_user_query := Some (user_query s);
     k_plan := Some (plan s);
     k_retrieved_chunks := Some (retrieved_chunks s);
     k_draft_answer := Some (draft_answer s);
     k_final_answer := Some (final_answer s);
     k_total_token_budget := Some (total_token_budget s);
     k_remaining_tokens := Some (remaining_tokens s);
     k_tokens_used := Some (tokens_used s);
     k_step_count := Some (step_count s);
     k_max_steps := Some (max_steps s);
     k_quality_score := Some (quality_score s);
     k_status := Some (status s) |}.

(** The empty dictionary. *)
Definition empty_state : RawState :=
  mkRaw None None None None None None None None None None None None.

Definition should_continue (state : RawState) : Decision :=
  let remaining := default 0 (k_remaining_tokens state) in
  let quality := default (FFin 0) (k_quality_score state) in
  let step_count := default 0 (k_step_count state) in
  let max_steps := default 5 (k_max_steps state) in
  let status := default EmptyString (k_status state) in
  if String.prefix "INSUFFICIENT_BUDGET" status then GoSummarize
  else if remaining <=? BUDGET_THRESHOLD then GoSummarize
  else if fge quality QUALITY_THRESHOLD then GoEnd
  else if max_steps <=? step_count then GoSummarize
  else GoLoop.

Definition finalize_node (state : RawState) : RawState :=
  mkRaw (k_user_query state) (k_plan state) (k_retrieved_chunks state)
    (k_draft_answer state) (Some (default EmptyString (k_draft_answer state)))
    (k_total_token_budget state) (k_remaining_tokens state) (k_tokens_used state)
    (k_step_count state) (k_max_steps state) (k_quality_score state)
    (Some "COMPLETED").

Definition consume_tokens (state : RawState) (node_name : string)
    (estimated_tokens : Z) : RawState :=
  let remaining := default 0 (k_remaining_tokens state) in
  let remaining := remaining - Z.max 0 estimated_tokens in
  let tokens_used := default ∅ (k_tokens_used state) in
  let prev := used tokens_used node_name in
  let tokens_used := <[node_name := prev + Z.max 0 estimated_tokens]> tokens_used in
  mkRaw (k_user_query state) (k_plan state) (k_retrieved_chunks state)
    (k_draft_answer state) (k_final_answer state)
    (k_total_token_budget state) (Some (Z.max remaining 0)) (Some tokens_used)
    (k_step_count state) (k_max_steps state) (k_quality_score state)
    (k_status state).

End Raw.

(** ** Vocabulary of the further properties *)

Module MoreProps.

(** A ledger without negative entries. *)
Definition entries_nonneg (m : gmap string Z) : Prop :=
  forall name v, m !! name = Some v -> 0 <= v.

(** The names under which the five stages charge the ledger. *)
Definition STAGE_NAMES : list string :=
  "planner" :: "retriever" :: "generator" :: "critic" :: "summarizer" :: nil.

(** The state one funded planner run of the sample service leaves. *)
Definition after_planner : AgentState :=
  set_step_count
    (consume_tokens (set_plan (initialize_state "q" 10000 5) "Lorem ipsum.")
       "planner" 150) 1.


(** A concrete embedding model and collection: every text embeds to one
    number, the collection holds three documents and answers a query with one
    row of [n_results] chunks; the client persists on request. *)
Definition sample_renv : Rag.RagEnv :=
  {| Rag.model_embed_documents := fun _ texts => map (fun _ => (1 # 2)%Q :: nil) texts;
     Rag.model_embed_query := fun _ _ => (1 # 2)%Q :: nil;
     Rag.collection_count := fun _ => 3%nat;
     Rag.collection_query := fun _ _ k => Some (repeat "chunk" (Z.to_nat k) :: nil);
     Rag.client_persist := fun _ => Returns tt |}.


(** A concrete tiktoken: it knows one model, whose encoder gives one token
    per character. *)
Definition sample_encoding_for_model (model : string) : option Tokenizer.Encoding :=
  if String.eqb model "gpt-4o"
  then Some (fun text => map Ascii.nat_of_ascii (list_ascii_of_string text))
  else None.

(** The encoder cache of a process that has estimated nothing yet. *)
Definition fresh_encoders : Tokenizer.Encoders :=
  {| Tokenizer.ENCODERS := ∅; Tokenizer.requested := nil |}.

(** The sample service in front of a vector store that finds nothing. *)
Definition barren_env : Env :=
  {| chat_create := sample_chat SCORE_05;
     similarity_search := fun _ _ _ => nil;
     json_loads := sample_json_loads;
     float_of_str := fun _ => None;
     encode_len := String.length |}.

End MoreProps.
Export MoreProps.

(** * Properties *)

(** ** The ledger *)

Section Ledger.

Implicit Types (s : AgentState) (m : gmap string Z).

Lemma sum_values_empty : sum_values ∅ = 0.
Proof. apply map_fold_empty. Qed.

Lemma sum_values_insert_fresh m k v :
  m !! k = None -> sum_values (<[k := v]> m) = v + sum_values m.
Proof.
  intros Hk. unfold sum_values.
  apply (map_fold_insert_L (fun _ v acc => v + acc)); [ | exact Hk].
  intros; lia.
Qed.

Lemma sum_values_insert m k v :
  sum_values (<[k := v]> m) = sum_values m - used m k + v.
Proof.
  unfold used. destruct (m !! k) as [w|] eqn:Hk; simpl.
  - rewrite <- (insert_delete_eq m k v).
    rewrite sum_values_insert_fresh by apply lookup_delete_eq.
    rewrite <- (insert_id m k w Hk) at 2.
    rewrite <- (insert_delete_eq m k w).
    rewrite sum_values_insert_fresh by apply lookup_delete_eq.
    lia.
  - rewrite sum_values_insert_fresh by exact Hk. lia.
Qed.

(** What [consume_tokens] writes. *)
Lemma consume_tokens_remaining s name cost :
  remaining_tokens (consume_tokens s name cost)
  = Z.max (remaining_tokens s - Z.max 0 cost) 0.
Proof. reflexivity. Qed.

Lemma consume_tokens_used s name cost :
  tokens_used (consume_tokens s name cost)
  = <[name := used (tokens_used s) name + Z.max 0 cost]> (tokens_used s).
Proof. reflexivity. Qed.

Lemma consume_tokens_sum s name cost :
  sum_values (tokens_used (consume_tokens s name cost))
  = sum_values (tokens_used s) + Z.max 0 cost.
Proof. rewrite consume_tokens_used, sum_values_insert. lia. Qed.

Lemma ledger_ok_init q total steps :
  0 <= total -> ledger_ok (initialize_state q total steps).
Proof.
  intros Htotal. unfold ledger_ok. simpl. rewrite sum_values_empty. lia.
Qed.

Lemma ledger_ok_consume s name cost :
  ledger_ok s -> ledger_ok (consume_tokens s name cost).
Proof.
  intros [Hrem Hpos]. unfold ledger_ok.
  rewrite consume_tokens_sum, consume_tokens_remaining.
  change (total_token_budget (consume_tokens s name cost)) with (total_token_budget s).
  lia.
Qed.

(** The invariant only reads the three ledger fields. *)
Lemma ledger_ok_ext s s' :
  total_token_budget s' = total_token_budget s ->
  remaining_tokens s' = remaining_tokens s ->
  tokens_used s' = tokens_used s ->
  ledger_ok s -> ledger_ok s'.
Proof. unfold ledger_ok. intros -> -> ->. trivial. Qed.

End Ledger.

(** ** What each node returns *)

Section NodeFacts.

Context (env : Env).

Implicit Types (s : AgentState) (log : list Call).

Ltac run_node :=
  unfold planner_node, retriever_node, generator_node, critic_node, summarizer_node,
    bind, ret, chat, search, lift; simpl.

Lemma planner_degraded s log :
  remaining_tokens s < PLANNER_REQUIRED_BUDGET ->
  planner_node env s log
  = Returns (set_status s "INSUFFICIENT_BUDGET_FOR_PLANNING", log).
Proof.
  intros Hlow. run_node.
  destruct (Z.ltb_spec (remaining_tokens s) PLANNER_REQUIRED_BUDGET); [reflexivity | lia].
Qed.

Lemma planner_funded s log :
  PLANNER_REQUIRED_BUDGET <= remaining_tokens s ->
  exists req text cost,
    planner_node env s log
    = Returns (set_step_count (consume_tokens (set_plan s text) "planner" cost)
                 (step_count s + 1),
               log ++ ChatCall req :: nil).
Proof.
  intros Hok. run_node.
  destruct (Z.ltb_spec (remaining_tokens s) PLANNER_REQUIRED_BUDGET); [lia | ].
  eexists _, _, _. reflexivity.
Qed.

Lemma retriever_unfunded s log :
  remaining_tokens s - MIN_GENERATION_BUDGET <= 0 ->
  retriever_node env s log = Returns (set_retrieved_chunks s nil, log).
Proof.
  intros Hlow. run_node.
  destruct (Z.leb_spec (remaining_tokens s - MIN_GENERATION_BUDGET) 0); [reflexivity | lia].
Qed.

Lemma retriever_funded s log :
  0 < remaining_tokens s - MIN_GENERATION_BUDGET ->
  exists chunks cost,
    retriever_node env s log
    = Returns (consume_tokens (set_retrieved_chunks s chunks) "retriever" cost,
               log ++ SearchCall (user_query s)
                        (Z.min (Z.max 1 ((remaining_tokens s - MIN_GENERATION_BUDGET)
                                         / TOKENS_PER_CHUNK)) 10) :: nil).
Proof.
  intros Hok. run_node.
  destruct (Z.leb_spec (remaining_tokens s - MIN_GENERATION_BUDGET) 0); [lia | ].
  eexists _, _. reflexivity.
Qed.

Lemma generator_degraded s log :
  remaining_tokens s < GENERATOR_REQUIRED_BUDGET ->
  generator_node env s log
  = Returns (set_status s "INSUFFICIENT_BUDGET_FOR_GENERATION", log).
Proof.
  intros Hlow. run_node.
  destruct (Z.ltb_spec (remaining_tokens s) GENERATOR_REQUIRED_BUDGET); [reflexivity | lia].
Qed.

Lemma generator_funded s log :
  GENERATOR_REQUIRED_BUDGET <= remaining_tokens s ->
  exists req text cost,
    generator_node env s log
    = Returns (consume_tokens (set_draft_answer s text) "generator" cost,
               log ++ ChatCall req :: nil).
Proof.
  intros Hok. run_node.
  destruct (Z.ltb_spec (remaining_tokens s) GENERATOR_REQUIRED_BUDGET); [lia | ].
  eexists _, _, _. reflexivity.
Qed.

Lemma critic_degraded s log :
  remaining_tokens s < CRITIC_REQUIRED_BUDGET ->
  critic_node env s log = Returns (set_quality_score s DEFAULT_SCORE, log).
Proof.
  intros Hlow. run_node.
  destruct (Z.ltb_spec (remaining_tokens s) CRITIC_REQUIRED_BUDGET); [reflexivity | lia].
Qed.

(** With budget, the critic calls the service and then either raises what the
    score parsing raises or stores the parsed score and pays. *)
Lemma critic_funded s log :
  CRITIC_REQUIRED_BUDGET <= remaining_tokens s ->
  exists req cost,
    critic_node env s log
    = match parse_score env (content_or (chat_create env log req) EmptyString) with
      | Returns score =>
          Returns (consume_tokens (set_quality_score s score) "critic" cost,
                   log ++ ChatCall req :: nil)
      | Raises e => Raises e
      end.
Proof.
  intros Hok. run_node.
  destruct (Z.ltb_spec (remaining_tokens s) CRITIC_REQUIRED_BUDGET); [lia | ].
  match goal with |- context [chat_create env log ?r] => exists r end.
  eexists.
  destruct (parse_score env _); reflexivity.
Qed.

Lemma summarizer_no_draft s log :
  draft_answer s = EmptyString ->
  summarizer_node env s log
  = Returns (set_status (set_final_answer s FALLBACK_ANSWER) "COMPLETED_WITH_SUMMARY", log).
Proof. intros Hdraft. run_node. rewrite Hdraft. reflexivity. Qed.

Lemma summarizer_unfunded s log :
  draft_answer s <> EmptyString ->
  remaining_tokens s < SUMMARIZER_BUDGET ->
  summarizer_node env s log
  = Returns (set_status (set_final_answer s (draft_answer s)) "COMPLETED_WITH_SUMMARY", log).
Proof.
  intros Hdraft Hlow. run_node.
  destruct (draft_answer s) eqn:E; [congruence | ]. simpl.
  destruct (Z.leb_spec SUMMARIZER_BUDGET (remaining_tokens s)); [lia | reflexivity].
Qed.

Lemma summarizer_funded s log :
  draft_answer s <> EmptyString ->
  SUMMARIZER_BUDGET <= remaining_tokens s ->
  exists req text cost,
    summarizer_node env s log
    = Returns (set_status (consume_tokens (set_final_answer s text) "summarizer" cost)
                 "COMPLETED_WITH_SUMMARY",
               log ++ ChatCall req :: nil).
Proof.
  intros Hdraft Hok. run_node.
  destruct (draft_answer s) eqn:E; [congruence | ]. simpl.
  destruct (Z.leb_spec SUMMARIZER_BUDGET (remaining_tokens s)); [ | lia].
  eexists _, _, _. reflexivity.
Qed.

End NodeFacts.

(** ** Every operation keeps the ledger invariant, the ceilings and the counter *)

Section Steps.

Context (env : Env).

Implicit Types (s : AgentState) (log : list Call).

Ltac split_move :=
  split; [reflexivity | split; [reflexivity | split; [lia | split; [ | simpl; auto 10]]]].

Lemma op_step_ledger_move s s' : op_step env s s' -> ledger_move s s'.
Proof.
  unfold ledger_move.
  destruct 1 as [s log s' log' H | s log s' log' H | s log s' log' H
                | s log s' log' H | s log s' log' H | s | s name cost].
  - destruct (Z.lt_ge_cases (remaining_tokens s) PLANNER_REQUIRED_BUDGET) as [Hb | Hb].
    + rewrite planner_degraded in H by exact Hb. injection H as <- _.
      simpl. split_move. left; split; reflexivity.
    + destruct (planner_funded env s log Hb) as (req & text & cost & E).
      rewrite E in H. injection H as <- _.
      simpl. split_move. right. exists "planner", cost. split; reflexivity.
  - destruct (Z.le_gt_cases (remaining_tokens s - MIN_GENERATION_BUDGET) 0) as [Hb | Hb].
    + rewrite retriever_unfunded in H by exact Hb. injection H as <- _.
      simpl. split_move. left; split; reflexivity.
    + destruct (retriever_funded env s log) as (chunks & cost & E); [lia | ].
      rewrite E in H. injection H as <- _.
      simpl. split_move. right. exists "retriever", cost. split; reflexivity.
  - destruct (Z.lt_ge_cases (remaining_tokens s) GENERATOR_REQUIRED_BUDGET) as [Hb | Hb].
    + rewrite generator_degraded in H by exact Hb. injection H as <- _.
      simpl. split_move. left; split; reflexivity.
    + destruct (generator_funded env s log Hb) as (req & text & cost & E).
      rewrite E in H. injection H as <- _.
      simpl. split_move. right. exists "generator", cost. split; reflexivity.
  - destruct (Z.lt_ge_cases (remaining_tokens s) CRITIC_REQUIRED_BUDGET) as [Hb | Hb].
    + rewrite critic_degraded in H by exact Hb. injection H as <- _.
      simpl. split_move. left; split; reflexivity.
    + destruct (critic_funded env s log Hb) as (req & cost & E).
      rewrite E in H. destruct (parse_score env _); [ | discriminate].
      injection H as <- _.
      simpl. split_move. right. exists "critic", cost. split; reflexivity.
  - destruct (string_dec (draft_answer s) EmptyString) as [Hd | Hd].
    + rewrite summarizer_no_draft in H by exact Hd. injection H as <- _.
      simpl. split_move. left; split; reflexivity.
    + destruct (Z.lt_ge_cases (remaining_tokens s) SUMMARIZER_BUDGET) as [Hb | Hb].
      * rewrite summarizer_unfunded in H by assumption. injection H as <- _.
        simpl. split_move. left; split; reflexivity.
      * destruct (summarizer_funded env s log Hd Hb) as (req & text & cost & E).
        rewrite E in H. injection H as <- _.
        simpl. split_move. right. exists "summarizer", cost. split; reflexivity.
  - simpl. split_move. left; split; reflexivity.
  - simpl. split_move. right. exists name, cost. split; reflexivity.
Qed.

Lemma ledger_move_ok s s' : ledger_move s s' -> ledger_ok s -> ledger_ok s'.
Proof.
  intros (Htot & _ & _ & [[Hrem Hused] | (name & cost & Hrem & Hused)] & _) Hok.
  - exact (ledger_ok_ext s s' Htot Hrem Hused Hok).
  - apply (ledger_ok_ext (consume_tokens s name cost) s'); try assumption.
    apply ledger_ok_consume, Hok.
Qed.

(** Every state the operations reach from a fresh request carries one of the
    program's status codes. *)
Lemma reachable_status_vocabulary q total steps s :
  reachable env (initialize_state q total steps) s ->
  In (status s) STATUS_VOCABULARY.
Proof.
  intros Hreach.
  refine (rtc_ind_r (fun st => In (status st) STATUS_VOCABULARY)
            (initialize_state q total steps) _ _ s Hreach).
  - simpl. auto.
  - intros s1 s2 _ Hstep IH.
    apply (op_step_ledger_move s1 s2 Hstep), IH.
Qed.

End Steps.

(** ** The budget ledger *)

Section LedgerClaims.

Context (env : Env).

Implicit Types (s : AgentState).

(** C9, as stated, fails on a state whose remaining budget is negative (the
    state [initialize_state] builds from a negative budget): a call with a
    negative cost raises [remaining_tokens] from -5 to 0. *)
Lemma consume_negative_cost_moves_remaining :
  let s := initialize_state "q" (-5) 3 in
  -1 < 0
  /\ remaining_tokens s = -5
  /\ remaining_tokens (consume_tokens s "x" (-1)) = 0
  /\ remaining_tokens (consume_tokens s "x" (-1)) <> remaining_tokens s.
Proof. simpl. repeat split; try lia. Qed.

(** C9 (amended): [consume_tokens] is total; it sets [tokens_used[name]] to
    its previous value (0 when absent) plus [max(0, cost)], leaves the other
    entries and the other fields alone, and sets [remaining_tokens] to
    [max(0, remaining_tokens - max(0, cost))].  Two calls with ["x"] and 100
    raise [tokens_used["x"]] by 200 (to 200 when there was no entry), which is
    not what one call leaves.  A negative cost changes no numeric value when
    [remaining_tokens] is not negative. *)
Theorem consume_tokens_ledger s name cost :
  let s' := consume_tokens s name cost in
  tokens_used s' !! name = Some (used (tokens_used s) name + Z.max 0 cost)
  /\ (forall other, other <> name -> tokens_used s' !! other = tokens_used s !! other)
  /\ remaining_tokens s' = Z.max 0 (remaining_tokens s - Z.max 0 cost)
  /\ s' = set_tokens_used (set_remaining_tokens s (remaining_tokens s'))
            (tokens_used s')
  /\ (let twice := consume_tokens (consume_tokens s "x" 100) "x" 100 in
      tokens_used twice !! "x" = Some (used (tokens_used s) "x" + 200)
      /\ (tokens_used s !! "x" = None -> tokens_used twice !! "x" = Some 200)
      /\ twice <> consume_tokens s "x" 100)
  /\ (cost < 0 -> 0 <= remaining_tokens s ->
      remaining_tokens s' = remaining_tokens s
      /\ total_token_budget s' = total_token_budget s
      /\ sum_values (tokens_used s') = sum_values (tokens_used s)
      /\ forall n, used (tokens_used s') n = used (tokens_used s) n).
Proof.
  cbv zeta.
  assert (Htwice : tokens_used (consume_tokens (consume_tokens s "x" 100) "x" 100) !! "x"
                   = Some (used (tokens_used s) "x" + 200)).
  { rewrite !consume_tokens_used. rewrite lookup_insert_eq.
    unfold used at 1. rewrite lookup_insert_eq. simpl. f_equal. lia. }
  split; [ | split; [ | split; [ | split; [ | split]]]].
  - rewrite consume_tokens_used. apply lookup_insert_eq.
  - intros other Hother. rewrite consume_tokens_used.
    apply lookup_insert_ne. congruence.
  - rewrite consume_tokens_remaining. lia.
  - reflexivity.
  - split; [exact Htwice | split].
    + intros Hnone. rewrite Htwice. unfold used. rewrite Hnone. reflexivity.
    + intros Heq. apply (f_equal (fun st => tokens_used st !! "x")) in Heq.
      rewrite Htwice in Heq. rewrite consume_tokens_used, lookup_insert_eq in Heq.
      injection Heq as Heq. lia.
  - intros Hneg Hpos. split; [ | split; [ | split]].
    + rewrite consume_tokens_remaining. lia.
    + reflexivity.
    + rewrite consume_tokens_sum. lia.
    + intros n. rewrite consume_tokens_used. unfold used.
      destruct (decide (name = n)) as [-> | Hne].
      * rewrite lookup_insert_eq. simpl. unfold used. lia.
      * rewrite lookup_insert_ne by exact Hne. reflexivity.
Qed.

(** The amended C9 at a fresh ledger: a negative cost leaves 1000 remaining. *)
Lemma consume_tokens_ledger_witness :
  remaining_tokens (consume_tokens (initialize_state "q" 1000 3) "x" (-7)) = 1000.
Proof.
  destruct (consume_tokens_ledger (initialize_state "q" 1000 3) "x" (-7))
    as (_ & _ & _ & _ & _ & Hneg).
  destruct Hneg as (Hrem & _); [lia | simpl; lia | ].
  exact Hrem.
Defined.

(** C2 (amended): when the budget given to [initialize_state] is not negative,
    every state reachable by the operations satisfies
    [remaining_tokens = max(0, total_token_budget - sum(tokens_used.values()))]
    and [remaining_tokens >= 0]. *)
Theorem ledger_invariant_reachable q total steps s :
  0 <= total ->
  reachable env (initialize_state q total steps) s ->
  remaining_tokens s = Z.max 0 (total_token_budget s - sum_values (tokens_used s))
  /\ 0 <= remaining_tokens s.
Proof.
  intros Htotal Hreach. change (ledger_ok s).
  refine (rtc_ind_r ledger_ok (initialize_state q total steps) _ _ s Hreach).
  - apply ledger_ok_init, Htotal.
  - intros s1 s2 _ Hstep IH.
    exact (ledger_move_ok s1 s2 (op_step_ledger_move env s1 s2 Hstep) IH).
Qed.

End LedgerClaims.

(** C2, as stated, fails at the initial state of a request with a negative
    budget: the state is reachable (by no operation at all), its
    [remaining_tokens] is the budget itself, hence negative and different from
    [max(0, total_token_budget - sum(tokens_used.values()))]. *)
Lemma negative_budget_breaks_ledger :
  let s := initialize_state "q" (-5) 3 in
  reachable (sample_env SCORE_05) (initialize_state "q" (-5) 3) s
  /\ remaining_tokens s = -5
  /\ Z.max 0 (total_token_budget s - sum_values (tokens_used s)) = 0
  /\ ~ ledger_ok s.
Proof.
  cbv zeta. split; [apply rtc_refl | ].
  split; [reflexivity | ]. split; [reflexivity | ].
  intros [_ Hpos]. simpl in Hpos. lia.
Qed.

(** The amended C2 on the state one planner run leaves from a budget of
    10000 (the sample service reports 150 tokens). *)
Lemma ledger_invariant_reachable_witness :
  let s := set_step_count
             (consume_tokens (set_plan (initialize_state "q" 10000 5) "Lorem ipsum.")
                "planner" 150) 1 in
  remaining_tokens s = 9850
  /\ remaining_tokens s = Z.max 0 (total_token_budget s - sum_values (tokens_used s))
  /\ 0 <= remaining_tokens s.
Proof.
  cbv zeta. split; [reflexivity | ].
  apply (ledger_invariant_reachable (sample_env SCORE_05) "q" 10000 5).
  - lia.
  - apply rtc_once.
    apply (step_planner (sample_env SCORE_05) (initialize_state "q" 10000 5) nil _
             (ChatCall {| system_content := PLANNER_SYSTEM_PROMPT;
                          user_content := "Create a plan to answer: q";
                          max_tokens := 300;
                          temperature := 3 # 10 |} :: nil)).
    reflexivity.
Defined.

(** ** The stage gates *)

Section GateClaims.

Context (env : Env).

Implicit Types (s : AgentState) (log : list Call).

Lemma set_status_same_besides s code : same_besides_status s (set_status s code).
Proof. unfold same_besides_status. simpl. repeat split. Qed.

(** C4: below the required budget (800 for the planner, 2500 for the
    generator) the node returns with the call log as it found it (no external
    call), and the state it returns has the degradation code as status and
    every other field, the ledger included, as before. *)
Theorem gate_correctness s log :
  PLANNER_REQUIRED_BUDGET = 800
  /\ GENERATOR_REQUIRED_BUDGET = 2500
  /\ (remaining_tokens s < PLANNER_REQUIRED_BUDGET ->
      exists s',
        planner_node env s log = Returns (s', log)
        /\ status s' = "INSUFFICIENT_BUDGET_FOR_PLANNING"
        /\ same_besides_status s s')
  /\ (remaining_tokens s < GENERATOR_REQUIRED_BUDGET ->
      exists s',
        generator_node env s log = Returns (s', log)
        /\ status s' = "INSUFFICIENT_BUDGET_FOR_GENERATION"
        /\ same_besides_status s s').
Proof.
  split; [reflexivity | split; [reflexivity | split]].
  - intros Hlow. eexists. split; [apply planner_degraded, Hlow | ].
    split; [reflexivity | apply set_status_same_besides].
  - intros Hlow. eexists. split; [apply generator_degraded, Hlow | ].
    split; [reflexivity | apply set_status_same_besides].
Qed.

(** C5 (amended): the planner adds exactly 1 to [step_count] when its gate
    passes and leaves it as it is when the gate fails; no operation, and so no
    sequence of operations, lowers [step_count]. *)
Theorem step_count_discipline s log :
  (PLANNER_REQUIRED_BUDGET <= remaining_tokens s ->
   exists s' log',
     planner_node env s log = Returns (s', log')
     /\ step_count s' = step_count s + 1)
  /\ (remaining_tokens s < PLANNER_REQUIRED_BUDGET ->
      exists s' log',
        planner_node env s log = Returns (s', log')
        /\ step_count s' = step_count s)
  /\ (forall s', op_step env s s' -> step_count s <= step_count s')
  /\ (forall s', reachable env s s' -> step_count s <= step_count s').
Proof.
  split; [ | split; [ | split]].
  - intros Hok. destruct (planner_funded env s log Hok) as (req & text & cost & E).
    eexists _, _. split; [exact E | reflexivity].
  - intros Hlow. eexists _, _. split; [apply planner_degraded, Hlow | reflexivity].
  - intros s' Hstep. apply (op_step_ledger_move env s s' Hstep).
  - intros s' Hreach.
    refine (rtc_ind_r (fun st => step_count s <= step_count st) s _ _ s' Hreach).
    + lia.
    + intros s1 s2 _ Hstep IH.
      pose proof (op_step_ledger_move env s1 s2 Hstep) as (_ & _ & Hmono & _). lia.
Qed.

(** C6: the summarizer always returns with status [COMPLETED_WITH_SUMMARY];
    below its budget of 400 it makes no call and leaves the ledger alone, and
    [final_answer] is the draft when there is one and the fixed fallback
    message when there is none. *)
Theorem summarizer_contract s log :
  SUMMARIZER_BUDGET = 400
  /\ (exists s' log',
        summarizer_node env s log = Returns (s', log')
        /\ status s' = "COMPLETED_WITH_SUMMARY")
  /\ (remaining_tokens s < SUMMARIZER_BUDGET ->
      draft_answer s <> EmptyString ->
      exists s',
        summarizer_node env s log = Returns (s', log)
        /\ final_answer s' = draft_answer s
        /\ status s' = "COMPLETED_WITH_SUMMARY"
        /\ remaining_tokens s' = remaining_tokens s
        /\ tokens_used s' = tokens_used s)
  /\ (remaining_tokens s < SUMMARIZER_BUDGET ->
      draft_answer s = EmptyString ->
      exists s',
        summarizer_node env s log = Returns (s', log)
        /\ final_answer s' = FALLBACK_ANSWER
        /\ status s' = "COMPLETED_WITH_SUMMARY"
        /\ remaining_tokens s' = remaining_tokens s
        /\ tokens_used s' = tokens_used s).
Proof.
  split; [reflexivity | split; [ | split]].
  - destruct (string_dec (draft_answer s) EmptyString) as [Hd | Hd].
    + eexists _, _. split; [apply summarizer_no_draft, Hd | reflexivity].
    + destruct (Z.lt_ge_cases (remaining_tokens s) SUMMARIZER_BUDGET) as [Hb | Hb].
      * eexists _, _. split; [apply summarizer_unfunded; assumption | reflexivity].
      * destruct (summarizer_funded env s log Hd Hb) as (req & text & cost & E).
        eexists _, _. split; [exact E | reflexivity].
  - intros Hlow Hd. eexists. split; [apply summarizer_unfunded; assumption | ].
    simpl. repeat split.
  - intros Hlow Hd. eexists. split; [apply summarizer_no_draft, Hd | ].
    simpl. repeat split.
Qed.

(** C7: with [affordable = remaining_tokens - 3000], the retriever that
    cannot afford context stores the empty chunk list and makes no call;
    otherwise it makes exactly one search call, for
    [clamp(floor(affordable / 400), 1, 10)] chunks, a number in [1, 10], and
    a state with a larger affordable budget never asks for fewer chunks. *)
Theorem retriever_bound s log :
  let affordable := remaining_tokens s - MIN_GENERATION_BUDGET in
  MIN_GENERATION_BUDGET = 3000
  /\ TOKENS_PER_CHUNK = 400
  /\ (affordable <= 0 ->
      exists s',
        retriever_node env s log = Returns (s', log)
        /\ retrieved_chunks s' = nil)
  /\ (0 < affordable ->
      exists s' k,
        retriever_node env s log = Returns (s', log ++ SearchCall (user_query s) k :: nil)
        /\ k = clamp (affordable / TOKENS_PER_CHUNK) 1 10
        /\ 1 <= k <= 10)
  /\ (forall t tlog s' t' q q' k k',
        0 < affordable ->
        affordable <= remaining_tokens t - MIN_GENERATION_BUDGET ->
        retriever_node env s log = Returns (s', log ++ SearchCall q k :: nil) ->
        retriever_node env t tlog = Returns (t', tlog ++ SearchCall q' k' :: nil) ->
        k <= k').
Proof.
  cbv zeta. split; [reflexivity | split; [reflexivity | split; [ | split]]].
  - intros Hlow. eexists. split; [apply retriever_unfunded, Hlow | reflexivity].
  - intros Hok. destruct (retriever_funded env s log Hok) as (chunks & cost & E).
    eexists _, _. split; [exact E | ]. unfold clamp. split; lia.
  - intros t tlog s' t' q q' k k' Hs Hle Es Et.
    destruct (retriever_funded env s log Hs) as (cs & cost & E). rewrite E in Es.
    destruct (retriever_funded env t tlog) as (ct & costt & E'); [lia | ].
    rewrite E' in Et.
    injection Es as _ Hlog. injection Et as _ Hlog'.
    apply app_inv_head in Hlog. apply app_inv_head in Hlog'.
    injection Hlog as _ <-. injection Hlog' as _ <-.
    assert (Hdiv : (remaining_tokens s - MIN_GENERATION_BUDGET) / TOKENS_PER_CHUNK
                   <= (remaining_tokens t - MIN_GENERATION_BUDGET) / TOKENS_PER_CHUNK).
    { apply Z.div_le_mono; [reflexivity | exact Hle]. }
    lia.
Qed.

(** C10: whenever the retriever returns, the state it returns has the same
    [status], [step_count], [plan], [draft_answer], [final_answer] and
    [quality_score] as the one it was given; and when it cannot afford context
    it does return, without a call, a state that also has [remaining_tokens]
    and [tokens_used] as they were. *)
Theorem retriever_frame s log :
  (forall s' log',
     retriever_node env s log = Returns (s', log') ->
     status s' = status s
     /\ step_count s' = step_count s
     /\ plan s' = plan s
     /\ draft_answer s' = draft_answer s
     /\ final_answer s' = final_answer s
     /\ quality_score s' = quality_score s)
  /\ (remaining_tokens s - MIN_GENERATION_BUDGET <= 0 ->
      exists s',
        retriever_node env s log = Returns (s', log)
        /\ remaining_tokens s' = remaining_tokens s
        /\ tokens_used s' = tokens_used s).
Proof.
  split.
  - intros s' log' Hrun.
    destruct (Z.le_gt_cases (remaining_tokens s - MIN_GENERATION_BUDGET) 0) as [Hb | Hb].
    + rewrite retriever_unfunded in Hrun by exact Hb. injection Hrun as <- _.
      simpl. repeat split.
    + destruct (retriever_funded env s log) as (chunks & cost & E); [lia | ].
      rewrite E in Hrun. injection Hrun as <- _. simpl. repeat split.
  - intros Hb. eexists. split; [apply retriever_unfunded, Hb | ]. simpl. split; reflexivity.
Qed.

End GateClaims.

(** *** The gates on concrete states *)

(** C4 on a request with a budget of 400: both gates fail. *)
Lemma gate_correctness_witness :
  let s := initialize_state "q" 400 1 in
  (exists s',
     planner_node (sample_env SCORE_05) s nil = Returns (s', nil)
     /\ status s' = "INSUFFICIENT_BUDGET_FOR_PLANNING"
     /\ same_besides_status s s')
  /\ (exists s',
        generator_node (sample_env SCORE_05) s nil = Returns (s', nil)
        /\ status s' = "INSUFFICIENT_BUDGET_FOR_GENERATION"
        /\ same_besides_status s s').
Proof.
  cbv zeta.
  destruct (gate_correctness (sample_env SCORE_05) (initialize_state "q" 400 1) nil)
    as (_ & _ & Hplanner & Hgenerator).
  split; [apply Hplanner | apply Hgenerator]; reflexivity.
Defined.

(** C5, as stated, fails on the degraded path: with a budget of 400 the
    planner returns with [step_count] still 0, not 1. *)
Lemma planner_degraded_keeps_step_count :
  let s := initialize_state "q" 400 1 in
  planner_node (sample_env SCORE_05) s nil
  = Returns (set_status s "INSUFFICIENT_BUDGET_FOR_PLANNING", nil)
  /\ step_count s = 0
  /\ step_count (set_status s "INSUFFICIENT_BUDGET_FOR_PLANNING") = 0
  /\ step_count (set_status s "INSUFFICIENT_BUDGET_FOR_PLANNING") <> step_count s + 1.
Proof.
  cbv zeta. split; [reflexivity | split; [reflexivity | split; [reflexivity | ]]].
  simpl. lia.
Qed.

(** The amended C5 on a funded and on a starved request. *)
Lemma step_count_discipline_witness :
  (exists s' log',
     planner_node (sample_env SCORE_05) (initialize_state "q" 10000 5) nil
     = Returns (s', log')
     /\ step_count s' = step_count (initialize_state "q" 10000 5) + 1)
  /\ (exists s' log',
        planner_node (sample_env SCORE_05) (initialize_state "q" 400 1) nil
        = Returns (s', log')
        /\ step_count s' = step_count (initialize_state "q" 400 1)).
Proof.
  split.
  - destruct (step_count_discipline (sample_env SCORE_05)
                (initialize_state "q" 10000 5) nil) as (Hfunded & _).
    apply Hfunded. simpl. unfold PLANNER_REQUIRED_BUDGET. lia.
  - destruct (step_count_discipline (sample_env SCORE_05)
                (initialize_state "q" 400 1) nil) as (_ & Hstarved & _).
    apply Hstarved. simpl. unfold PLANNER_REQUIRED_BUDGET. lia.
Defined.

(** C6 below the summarizer's budget, with a draft and without one. *)
Lemma summarizer_contract_witness :
  let s := initialize_state "q" 300 1 in
  (exists s',
     summarizer_node (sample_env SCORE_05) (set_draft_answer s "A draft.") nil
     = Returns (s', nil)
     /\ final_answer s' = "A draft."
     /\ status s' = "COMPLETED_WITH_SUMMARY"
     /\ remaining_tokens s' = 300
     /\ tokens_used s' = ∅)
  /\ (exists s',
        summarizer_node (sample_env SCORE_05) s nil = Returns (s', nil)
        /\ final_answer s' = FALLBACK_ANSWER
        /\ status s' = "COMPLETED_WITH_SUMMARY"
        /\ remaining_tokens s' = 300
        /\ tokens_used s' = ∅).
Proof.
  cbv zeta. split.
  - destruct (summarizer_contract (sample_env SCORE_05)
                (set_draft_answer (initialize_state "q" 300 1) "A draft.") nil)
      as (_ & _ & Hdraft & _).
    apply Hdraft; [simpl; unfold SUMMARIZER_BUDGET; lia | discriminate].
  - destruct (summarizer_contract (sample_env SCORE_05)
                (initialize_state "q" 300 1) nil) as (_ & _ & _ & Hnone).
    apply Hnone; [simpl; unfold SUMMARIZER_BUDGET; lia | reflexivity].
Defined.

(** C7 with 5000 tokens left (2000 affordable: five chunks) and with 3000
    left (nothing affordable: no call). *)
Lemma retriever_bound_witness :
  (exists s' k,
     retriever_node (sample_env SCORE_05) (initialize_state "q" 5000 5) nil
     = Returns (s', SearchCall "q" k :: nil)
     /\ k = clamp (2000 / 400) 1 10
     /\ 1 <= k <= 10)
  /\ (exists s',
        retriever_node (sample_env SCORE_05) (initialize_state "q" 3000 5) nil
        = Returns (s', nil)
        /\ retrieved_chunks s' = nil).
Proof.
  split.
  - destruct (retriever_bound (sample_env SCORE_05) (initialize_state "q" 5000 5) nil)
      as (_ & _ & _ & Hfunded & _).
    apply Hfunded. simpl. unfold MIN_GENERATION_BUDGET. lia.
  - destruct (retriever_bound (sample_env SCORE_05) (initialize_state "q" 3000 5) nil)
      as (_ & _ & Hunfunded & _).
    apply Hunfunded. simpl. unfold MIN_GENERATION_BUDGET. lia.
Defined.

(** C10 with 3000 tokens left (nothing affordable: the ledger is untouched)
    and with 5000 left (a funded search: the six fields are untouched). *)
Lemma retriever_frame_witness :
  (exists s',
     retriever_node (sample_env SCORE_05) (initialize_state "q" 3000 5) nil
     = Returns (s', nil)
     /\ remaining_tokens s' = 3000
     /\ tokens_used s' = ∅)
  /\ (let s' := consume_tokens
                  (set_retrieved_chunks (initialize_state "q" 5000 5)
                     (repeat "chunk" 5)) "retriever" 33 in
      status s' = "INIT"
      /\ step_count s' = 0
      /\ plan s' = EmptyString
      /\ draft_answer s' = EmptyString
      /\ final_answer s' = EmptyString
      /\ quality_score s' = FFin 0).
Proof.
  split.
  - destruct (retriever_frame (sample_env SCORE_05) (initialize_state "q" 3000 5) nil)
      as (_ & Hunfunded).
    apply Hunfunded. simpl. unfold MIN_GENERATION_BUDGET. lia.
  - cbv zeta.
    destruct (retriever_frame (sample_env SCORE_05) (initialize_state "q" 5000 5) nil)
      as (Hframe & _).
    apply (Hframe _ (SearchCall "q" 5 :: nil)). reflexivity.
Defined.

(** ** The router *)

Section RouterClaims.

Implicit Types (s : AgentState).

(** The prefix test of [should_continue] singles out the two degradation
    codes among the statuses the program writes. *)
Lemma prefix_test_vocabulary status :
  In status STATUS_VOCABULARY ->
  String.prefix "INSUFFICIENT_BUDGET" status = true <-> degradation_code status.
Proof.
  unfold degradation_code. simpl.
  intros [<- | [<- | [<- | [<- | [<- | []]]]]]; simpl;
    split; auto; intros H; try discriminate; destruct H; discriminate.
Qed.

(** [>=] against the quality threshold, on a finite score. *)
Lemma fge_threshold_finite q :
  fge (FFin q) QUALITY_THRESHOLD = true <-> (85 # 100 <= q)%Q.
Proof. simpl. apply Qle_bool_iff. Qed.

(** C3: on a state whose status is one of the program's codes, the router
    decides by the first rule that matches: a degradation code gives
    summarize; else a remaining budget of at most 500 gives summarize; else a
    quality score of at least 0.85 gives end; else a step count that has
    reached [max_steps] gives summarize; else loop.  The first two rules do
    not look at the quality score. *)
Theorem router_precedence s :
  In (status s) STATUS_VOCABULARY ->
  BUDGET_THRESHOLD = 500
  /\ QUALITY_THRESHOLD = FFin (85 # 100)
  /\ (degradation_code (status s) -> should_continue s = GoSummarize)
  /\ (~ degradation_code (status s) ->
      remaining_tokens s <= BUDGET_THRESHOLD ->
      should_continue s = GoSummarize)
  /\ (~ degradation_code (status s) ->
      BUDGET_THRESHOLD < remaining_tokens s ->
      fge (quality_score s) QUALITY_THRESHOLD = true ->
      should_continue s = GoEnd)
  /\ (~ degradation_code (status s) ->
      BUDGET_THRESHOLD < remaining_tokens s ->
      fge (quality_score s) QUALITY_THRESHOLD = false ->
      max_steps s <= step_count s ->
      should_continue s = GoSummarize)
  /\ (~ degradation_code (status s) ->
      BUDGET_THRESHOLD < remaining_tokens s ->
      fge (quality_score s) QUALITY_THRESHOLD = false ->
      step_count s < max_steps s ->
      should_continue s = GoLoop).
Proof.
  intros Hvoc. pose proof (prefix_test_vocabulary (status s) Hvoc) as Hprefix.
  split; [reflexivity | split; [reflexivity | ]].
  unfold should_continue.
  destruct (String.prefix "INSUFFICIENT_BUDGET" (status s)) eqn:Ep.
  - assert (Hdeg : degradation_code (status s)) by (apply Hprefix; reflexivity).
    repeat split; intros; try reflexivity; contradiction.
  - assert (Hnot : ~ degradation_code (status s)).
    { intros Hdeg. apply Hprefix in Hdeg. discriminate. }
    split; [intros; contradiction | ].
    destruct (Z.leb_spec (remaining_tokens s) BUDGET_THRESHOLD) as [Hb | Hb].
    + repeat split; intros; try reflexivity; lia.
    + split; [intros; lia | ].
      destruct (fge (quality_score s) QUALITY_THRESHOLD) eqn:Eq.
      * repeat split; intros; try reflexivity; discriminate.
      * split; [intros; discriminate | ].
        destruct (Z.leb_spec (max_steps s) (step_count s)) as [Hs | Hs];
          split; intros; try reflexivity; lia.
Qed.

End RouterClaims.

(** C3 on a degraded state with a perfect score and on a state with 500
    tokens left and a perfect score: both are routed to summarize. *)
Lemma router_precedence_witness :
  let s := set_quality_score (initialize_state "q" 10000 5) (FFin 1) in
  should_continue (set_status s "INSUFFICIENT_BUDGET_FOR_GENERATION") = GoSummarize
  /\ should_continue (set_remaining_tokens s 500) = GoSummarize
  /\ should_continue s = GoEnd.
Proof.
  cbv zeta.
  set (s := set_quality_score (initialize_state "q" 10000 5) (FFin 1)).
  split; [ | split].
  - destruct (router_precedence (set_status s "INSUFFICIENT_BUDGET_FOR_GENERATION"))
      as (_ & _ & Hrule1 & _); [simpl; auto | ].
    apply Hrule1. right. reflexivity.
  - destruct (router_precedence (set_remaining_tokens s 500))
      as (_ & _ & _ & Hrule2 & _); [simpl; auto | ].
    apply Hrule2; [ | simpl; unfold BUDGET_THRESHOLD; lia].
    intros [H | H]; discriminate.
  - destruct (router_precedence s) as (_ & _ & _ & _ & Hrule3 & _); [simpl; auto | ].
    apply Hrule3; [ | simpl; unfold BUDGET_THRESHOLD; lia | reflexivity].
    intros [H | H]; discriminate.
Defined.

(** ** The critic *)

Section CriticFacts.

Context (env : Env).

Implicit Types (s : AgentState) (log : list Call).

(** The clamp [max(0.0, min(1.0, score))] lands in [0, 1] whatever the
    score, NaN and the infinities included. *)
Lemma clamp_unit_interval score :
  exists q, py_max (FFin 0) (py_min (FFin 1) score) = FFin q /\ (0 <= q <= 1)%Q.
Proof.
  destruct score as [q | | | ]; unfold py_min, py_max; simpl.
  - destruct (Qle_bool 1 q) eqn:E1; simpl.
    + exists 1%Q. split; [reflexivity | split; discriminate].
    + destruct (Qle_bool q 0) eqn:E0; simpl.
      * exists 0%Q. split; [reflexivity | split; discriminate].
      * exists q. split; [reflexivity | ].
        assert (H0 : ~ (q <= 0)%Q) by (rewrite <- Qle_bool_iff; congruence).
        assert (H1 : ~ (1 <= q)%Q) by (rewrite <- Qle_bool_iff; congruence).
        split; apply Qlt_le_weak, Qnot_le_lt; assumption.
  - exists 1%Q. split; [reflexivity | split; discriminate].
  - exists 0%Q. split; [reflexivity | split; discriminate].
  - exists 1%Q. split; [reflexivity | split; discriminate].
Qed.

(** Whenever the score parsing returns, the score is in [0, 1]. *)
Lemma parse_score_unit_interval text score :
  parse_score env text = Returns score ->
  exists q, score = FFin q /\ (0 <= q <= 1)%Q.
Proof.
  unfold parse_score, score_attempt, obind.
  destruct (json_loads env text) as [parsed | ].
  - destruct (py_get parsed "score" (JFloat DEFAULT_SCORE)) as [v | e].
    + destruct (py_float (float_of_str env) v) as [f | e].
      * intros [= <-]. apply clamp_unit_interval.
      * destruct (caught e); [ | discriminate].
        intros [= <-]. exists (7 # 10). split; [reflexivity | split; discriminate].
    + destruct (caught e); [ | discriminate].
      intros [= <-]. exists (7 # 10). split; [reflexivity | split; discriminate].
  - simpl. intros [= <-]. exists (7 # 10). split; [reflexivity | split; discriminate].
Qed.

(** A reply that does not decode at all falls back to the default. *)
Lemma parse_score_undecodable text :
  json_loads env text = None -> parse_score env text = Returns DEFAULT_SCORE.
Proof. intros H. unfold parse_score, score_attempt. rewrite H. reflexivity. Qed.

(** A reply that decodes to anything but an object escapes the handler. *)
Lemma parse_score_not_an_object text parsed :
  json_loads env text = Some parsed ->
  (forall d, parsed <> JDict d) ->
  parse_score env text = Raises AttributeError.
Proof.
  intros H Hnot. unfold parse_score, score_attempt. rewrite H.
  destruct parsed; try reflexivity. destruct (Hnot d). reflexivity.
Qed.

(** So does an object whose score is an integer too large for a double. *)
Lemma parse_score_huge_integer text n d :
  json_loads env text = Some (JDict d) ->
  dict_find d "score" = Some (JInt n) ->
  2 ^ 1024 <= n ->
  parse_score env text = Raises OverflowError.
Proof.
  intros H Hfind Hbig. unfold parse_score, score_attempt. rewrite H.
  simpl. rewrite Hfind. simpl. unfold float_of_int.
  destruct (Z.ltb_spec (Z.abs n) (2 ^ 1024 - 2 ^ 970)) as [Hlt | _]; [ | reflexivity].
  assert (0 < 2 ^ 970) by (apply Z.pow_pos_nonneg; lia). lia.
Qed.

(** Whenever the critic returns, the score it stored is in [0, 1]; on the
    degraded path it is the default and no call was made. *)
Lemma critic_score_unit_interval s log s' log' :
  critic_node env s log = Returns (s', log') ->
  exists q, quality_score s' = FFin q /\ (0 <= q <= 1)%Q.
Proof.
  destruct (Z.lt_ge_cases (remaining_tokens s) CRITIC_REQUIRED_BUDGET) as [Hb | Hb].
  - rewrite critic_degraded by exact Hb. intros [= <- _].
    exists (7 # 10). split; [reflexivity | split; discriminate].
  - destruct (critic_funded env s log Hb) as (req & cost & E). rewrite E.
    destruct (parse_score env _) as [score | e] eqn:Ep; [ | discriminate].
    intros [= <- _]. simpl. exact (parse_score_unit_interval _ _ Ep).
Qed.

End CriticFacts.

(** C8 at a reply the handler misses: the critic has budget, the service
    answers [[0.9]] (valid JSON, not an object), [parsed.get] raises
    [AttributeError], the handler does not catch it, and neither the node nor
    the graph run returns a state. *)
Theorem critic_non_object_reply_raises :
  let env := sample_env "[0.9]" in
  let s := initialize_state "q" 10000 5 in
  json_loads env "[0.9]" = Some (JList (JFloat (FFin (9 # 10)) :: nil))
  /\ parse_score env "[0.9]" = Raises AttributeError
  /\ critic_node env s nil = Raises AttributeError
  /\ invoke env 6 s nil = Raises AttributeError.
Proof. cbv zeta. repeat split; vm_compute; reflexivity. Qed.

(** ** The loop *)

Section Pipeline.

Context (env : Env).

Implicit Types (s : AgentState) (log : list Call).

Lemma bind_returns {A B : Type} (c : M A) (k : A -> M B) log a log' :
  c log = Returns (a, log') -> bind c k log = k a log'.
Proof. intros H. unfold bind. rewrite H. reflexivity. Qed.

Lemma retriever_returns s log :
  exists s' log', retriever_node env s log = Returns (s', log').
Proof.
  destruct (Z.le_gt_cases (remaining_tokens s - MIN_GENERATION_BUDGET) 0) as [Hb | Hb].
  - eexists _, _. apply retriever_unfunded, Hb.
  - destruct (retriever_funded env s log) as (chunks & cost & E); [lia | ].
    eexists _, _. exact E.
Qed.

Lemma generator_returns s log :
  exists s' log', generator_node env s log = Returns (s', log').
Proof.
  destruct (Z.lt_ge_cases (remaining_tokens s) GENERATOR_REQUIRED_BUDGET) as [Hb | Hb].
  - eexists _, _. apply generator_degraded, Hb.
  - destruct (generator_funded env s log Hb) as (req & text & cost & E).
    eexists _, _. exact E.
Qed.

Lemma critic_returns s log :
  critic_parses env -> exists s' log', critic_node env s log = Returns (s', log').
Proof.
  intros Hparse.
  destruct (Z.lt_ge_cases (remaining_tokens s) CRITIC_REQUIRED_BUDGET) as [Hb | Hb].
  - eexists _, _. apply critic_degraded, Hb.
  - destruct (critic_funded env s log Hb) as (req & cost & E).
    destruct (Hparse log req) as (score & Hscore). rewrite Hscore in E.
    eexists _, _. exact E.
Qed.

Lemma summarizer_returns s log :
  exists s' log',
    summarizer_node env s log = Returns (s', log')
    /\ status s' = "COMPLETED_WITH_SUMMARY".
Proof.
  destruct (string_dec (draft_answer s) EmptyString) as [Hd | Hd].
  - eexists _, _. split; [apply summarizer_no_draft, Hd | reflexivity].
  - destruct (Z.lt_ge_cases (remaining_tokens s) SUMMARIZER_BUDGET) as [Hb | Hb].
    + eexists _, _. split; [apply summarizer_unfunded; assumption | reflexivity].
    + destruct (summarizer_funded env s log Hd Hb) as (req & text & cost & E).
      eexists _, _. split; [exact E | reflexivity].
Qed.

(** The three stages after the planner leave the two counters alone and
    never raise a non-negative remaining budget. *)
Lemma later_stage_counters s log s' log' :
  retriever_node env s log = Returns (s', log')
  \/ generator_node env s log = Returns (s', log')
  \/ critic_node env s log = Returns (s', log') ->
  step_count s' = step_count s
  /\ max_steps s' = max_steps s
  /\ (0 <= remaining_tokens s -> 0 <= remaining_tokens s' <= remaining_tokens s).
Proof.
  intros [H | [H | H]].
  - destruct (Z.le_gt_cases (remaining_tokens s - MIN_GENERATION_BUDGET) 0) as [Hb | Hb].
    + rewrite retriever_unfunded in H by exact Hb. injection H as <- _.
      simpl. repeat split; lia.
    + destruct (retriever_funded env s log) as (chunks & cost & E); [lia | ].
      rewrite E in H. injection H as <- _. simpl. repeat split; lia.
  - destruct (Z.lt_ge_cases (remaining_tokens s) GENERATOR_REQUIRED_BUDGET) as [Hb | Hb].
    + rewrite generator_degraded in H by exact Hb. injection H as <- _.
      simpl. repeat split; lia.
    + destruct (generator_funded env s log Hb) as (req & text & cost & E).
      rewrite E in H. injection H as <- _. simpl. repeat split; lia.
  - destruct (Z.lt_ge_cases (remaining_tokens s) CRITIC_REQUIRED_BUDGET) as [Hb | Hb].
    + rewrite critic_degraded in H by exact Hb. injection H as <- _.
      simpl. repeat split; lia.
    + destruct (critic_funded env s log Hb) as (req & cost & E).
      rewrite E in H. destruct (parse_score env _); [ | discriminate].
      injection H as <- _. simpl. repeat split; lia.
Qed.

(** A pass whose planner gate fails: every later gate fails too, no call is
    made, and the state only gets a degradation code, an empty chunk list and
    the default score. *)
Lemma critique_pass_starved s log :
  remaining_tokens s < PLANNER_REQUIRED_BUDGET ->
  critique_pass env s log
  = Returns (set_quality_score
               (set_status
                  (set_retrieved_chunks
                     (set_status s "INSUFFICIENT_BUDGET_FOR_PLANNING") nil)
                  "INSUFFICIENT_BUDGET_FOR_GENERATION")
               DEFAULT_SCORE,
             log).
Proof.
  intros Hlow. unfold PLANNER_REQUIRED_BUDGET in Hlow. unfold critique_pass.
  rewrite (bind_returns _ _ _ _ _ (planner_degraded env s log Hlow)).
  erewrite bind_returns;
    [ | apply retriever_unfunded; simpl; unfold MIN_GENERATION_BUDGET; lia].
  erewrite bind_returns;
    [ | apply generator_degraded; simpl; unfold GENERATOR_REQUIRED_BUDGET; lia].
  apply critic_degraded. simpl. unfold CRITIC_REQUIRED_BUDGET. lia.
Qed.

(** A pass whose planner gate passes, when it returns, has run the planner
    once. *)
Lemma critique_pass_funded s log s4 log4 :
  PLANNER_REQUIRED_BUDGET <= remaining_tokens s ->
  critique_pass env s log = Returns (s4, log4) ->
  step_count s4 = step_count s + 1
  /\ max_steps s4 = max_steps s
  /\ 0 <= remaining_tokens s4 <= remaining_tokens s.
Proof.
  intros Hok Hpass. unfold critique_pass in Hpass.
  destruct (planner_funded env s log Hok) as (req & text & cost & E1).
  rewrite (bind_returns _ _ _ _ _ E1) in Hpass.
  set (s1 := set_step_count _ _) in *.
  destruct (retriever_returns s1 (log ++ ChatCall req :: nil)) as (s2 & l2 & E2).
  rewrite (bind_returns _ _ _ _ _ E2) in Hpass.
  destruct (generator_returns s2 l2) as (s3 & l3 & E3).
  rewrite (bind_returns _ _ _ _ _ E3) in Hpass.
  destruct (later_stage_counters s1 _ s2 l2 (or_introl E2)) as (Hc2 & Hm2 & Hr2).
  destruct (later_stage_counters s2 l2 s3 l3 (or_intror (or_introl E3)))
    as (Hc3 & Hm3 & Hr3).
  destruct (later_stage_counters s3 l3 s4 log4 (or_intror (or_intror Hpass)))
    as (Hc4 & Hm4 & Hr4).
  assert (H1 : step_count s1 = step_count s + 1 /\ max_steps s1 = max_steps s
               /\ 0 <= remaining_tokens s1 <= remaining_tokens s).
  { subst s1. simpl. unfold PLANNER_REQUIRED_BUDGET in Hok. repeat split; lia. }
  destruct H1 as (Hc1 & Hm1 & Hr1).
  repeat split; lia.
Qed.

(** A pass returns whenever the critic's parsing does. *)
Lemma critique_pass_returns s log :
  critic_parses env ->
  exists s4 log4, critique_pass env s log = Returns (s4, log4).
Proof.
  intros Hparse.
  destruct (Z.lt_ge_cases (remaining_tokens s) PLANNER_REQUIRED_BUDGET) as [Hb | Hb].
  - eexists _, _. apply critique_pass_starved, Hb.
  - unfold critique_pass.
    destruct (planner_funded env s log Hb) as (req & text & cost & E1).
    rewrite (bind_returns _ _ _ _ _ E1).
    destruct (retriever_returns (set_step_count
                (consume_tokens (set_plan s text) "planner" cost) (step_count s + 1))
                (log ++ ChatCall req :: nil)) as (s2 & l2 & E2).
    rewrite (bind_returns _ _ _ _ _ E2).
    destruct (generator_returns s2 l2) as (s3 & l3 & E3).
    rewrite (bind_returns _ _ _ _ _ E3).
    apply critic_returns, Hparse.
Qed.

(** The router sends a pass back to the planner only if the planner ran. *)
Lemma loop_after_funded_pass s log s4 log4 :
  critique_pass env s log = Returns (s4, log4) ->
  should_continue s4 = GoLoop ->
  step_count s4 = step_count s + 1
  /\ max_steps s4 = max_steps s
  /\ step_count s4 < max_steps s4
  /\ 0 <= remaining_tokens s4 <= remaining_tokens s.
Proof.
  intros Hpass Hloop.
  destruct (Z.lt_ge_cases (remaining_tokens s) PLANNER_REQUIRED_BUDGET) as [Hb | Hb].
  - rewrite critique_pass_starved in Hpass by exact Hb.
    injection Hpass as <- _. discriminate Hloop.
  - destruct (critique_pass_funded s log s4 log4 Hb Hpass) as (Hc & Hm & Hr).
    repeat split; try lia.
    unfold should_continue in Hloop.
    destruct (String.prefix _ _); [discriminate | ].
    destruct (_ <=? _); [discriminate | ].
    destruct (fge _ _); [discriminate | ].
    destruct (Z.leb_spec (max_steps s4) (step_count s4)); [discriminate | lia].
Qed.

(** With at least one unit of fuel and as many as there are steps left, the
    graph run returns a terminal state, after at most that many router
    evaluations. *)
Lemma invoke_terminates :
  critic_parses env ->
  forall fuel s log,
    (1 <= fuel)%nat ->
    max_steps s - step_count s <= Z.of_nat fuel ->
    exists final n log',
      invoke env fuel s log = Returns (Some (final, n), log')
      /\ (1 <= n)%nat
      /\ Z.of_nat n <= Z.max 1 (max_steps s - step_count s)
      /\ terminal (status final).
Proof.
  intros Hparse. induction fuel as [ | fuel IH]; intros s log Hfuel Hleft; [lia | ].
  destruct (critique_pass_returns s log Hparse) as (s4 & log4 & Hpass).
  simpl invoke. rewrite (bind_returns _ _ _ _ _ Hpass).
  destruct (should_continue s4) eqn:Hroute.
  - eexists _, 1%nat, _. split; [reflexivity | ].
    split; [lia | split; [lia | left; reflexivity]].
  - destruct (loop_after_funded_pass s log s4 log4 Hpass Hroute) as (Hc & Hm & Hlt & _).
    destruct (IH s4 log4) as (final & n & log' & Hrun & Hn & Hbound & Hterm); [lia | lia | ].
    rewrite (bind_returns _ _ _ _ _ Hrun).
    eexists _, (S n), _. split; [reflexivity | ].
    split; [lia | split; [lia | exact Hterm]].
  - destruct (summarizer_returns s4 log4) as (s5 & log5 & Hsum & Hstatus).
    rewrite (bind_returns _ _ _ _ _ Hsum).
    eexists _, 1%nat, _. split; [reflexivity | ].
    split; [lia | split; [lia | right; exact Hstatus]].
Qed.

End Pipeline.

(** ** How a run can end *)

Section LoopOutcome.

Context (env : Env).

Implicit Types (s : AgentState) (log : list Call).

Lemma planner_returns s log :
  exists s' log', planner_node env s log = Returns (s', log').
Proof.
  destruct (Z.lt_ge_cases (remaining_tokens s) PLANNER_REQUIRED_BUDGET) as [Hb | Hb].
  - eexists _, _. apply planner_degraded, Hb.
  - destruct (planner_funded env s log Hb) as (req & text & cost & E).
    eexists _, _. exact E.
Qed.

(** A pass is a sequence of operations. *)
Lemma critique_pass_reachable s log s4 log4 :
  critique_pass env s log = Returns (s4, log4) -> reachable env s s4.
Proof.
  intros Hpass. unfold critique_pass in Hpass.
  destruct (planner_returns s log) as (s1 & l1 & E1).
  rewrite (bind_returns _ _ _ _ _ E1) in Hpass.
  destruct (retriever_returns env s1 l1) as (s2 & l2 & E2).
  rewrite (bind_returns _ _ _ _ _ E2) in Hpass.
  destruct (generator_returns env s2 l2) as (s3 & l3 & E3).
  rewrite (bind_returns _ _ _ _ _ E3) in Hpass.
  unfold reachable.
  eapply rtc_l; [exact (step_planner env _ _ _ _ E1) | ].
  eapply rtc_l; [exact (step_retriever env _ _ _ _ E2) | ].
  eapply rtc_l; [exact (step_generator env _ _ _ _ E3) | ].
  apply rtc_once. exact (step_critic env _ _ _ _ Hpass).
Qed.






End LoopOutcome.

Section LoopClaim.

Context (env : Env).


End LoopClaim.

(** *** The loop on concrete requests *)



(** The other two ways out, on the same request: a graph library that allows
    three passes only stops the run, and a critic service that answers
    [[0.9]] makes it raise. *)
Example run_stopped_or_raised :
  (exists log',
     invoke (sample_env SCORE_05) 3 (initialize_state "q" 10000 5) nil
     = Returns (None, log'))
  /\ invoke (sample_env "[0.9]") 5 (initialize_state "q" 10000 5) nil
     = Raises AttributeError.
Proof. split; [eexists | ]; vm_compute; reflexivity. Qed.

(** Scenario A: budget 10000, five steps, a critic that always answers 0.5:
    five passes, then the router forces summarize. *)
Example scenario_quality_never_reached :
  match invoke (sample_env SCORE_05) 6 (initialize_state "q" 10000 5) nil with
  | Returns (Some (final, n), _) =>
      n = 5%nat
      /\ step_count final = 5
      /\ status final = "COMPLETED_WITH_SUMMARY"
      /\ remaining_tokens final = 7260
  | _ => False
  end.
Proof. vm_compute. repeat split. Qed.

(** Scenario B: budget 400: the planner degrades, the router summarizes, and
    the answer is the fallback message. *)
Example scenario_budget_below_every_gate :
  match invoke (sample_env SCORE_05) 6 (initialize_state "q" 400 5) nil with
  | Returns (Some (final, n), log) =>
      n = 1%nat
      /\ log = nil
      /\ final_answer final = FALLBACK_ANSWER
      /\ status final = "COMPLETED_WITH_SUMMARY"
      /\ remaining_tokens final = 400
  | _ => False
  end.
Proof. vm_compute. repeat split. Qed.

(** Scenario C: the critic answers 0.9 on the first pass: the router ends,
    and the final answer is the draft. *)
Example scenario_quality_reached :
  match invoke (sample_env SCORE_09) 6 (initialize_state "q" 10000 5) nil with
  | Returns (Some (final, n), _) =>
      n = 1%nat
      /\ final_answer final = draft_answer final
      /\ quality_score final = FFin (9 # 10)
      /\ status final = "COMPLETED"
  | _ => False
  end.
Proof. vm_compute. repeat split. Qed.

(** * Further properties of the code *)

(** ** The shape of one operation *)

Section OperationShapes.

Context (env : Env).

Implicit Types (s : AgentState) (log : list Call).

(** Every operation is one of twelve explicit rewritings of the state. *)
Lemma op_step_inv s s' :
  op_step env s s' ->
  s' = set_status s "INSUFFICIENT_BUDGET_FOR_PLANNING"
  \/ (exists text cost,
        s' = set_step_count (consume_tokens (set_plan s text) "planner" cost)
               (step_count s + 1))
  \/ s' = set_retrieved_chunks s nil
  \/ (exists chunks cost,
        s' = consume_tokens (set_retrieved_chunks s chunks) "retriever" cost)
  \/ s' = set_status s "INSUFFICIENT_BUDGET_FOR_GENERATION"
  \/ (exists text cost, s' = consume_tokens (set_draft_answer s text) "generator" cost)
  \/ s' = set_quality_score s DEFAULT_SCORE
  \/ (exists score cost, s' = consume_tokens (set_quality_score s score) "critic" cost)
  \/ s' = set_status (set_final_answer s FALLBACK_ANSWER) "COMPLETED_WITH_SUMMARY"
  \/ s' = set_status (set_final_answer s (draft_answer s)) "COMPLETED_WITH_SUMMARY"
  \/ (exists text cost,
        s' = set_status (consume_tokens (set_final_answer s text) "summarizer" cost)
               "COMPLETED_WITH_SUMMARY")
  \/ s' = finalize_node s
  \/ (exists name cost, s' = consume_tokens s name cost).
Proof.
  destruct 1 as [s log s' log' H | s log s' log' H | s log s' log' H
                | s log s' log' H | s log s' log' H | s | s name cost].
  - destruct (Z.lt_ge_cases (remaining_tokens s) PLANNER_REQUIRED_BUDGET) as [Hb | Hb].
    + rewrite planner_degraded in H by exact Hb. injection H as <- _. tauto.
    + destruct (planner_funded env s log Hb) as (req & text & cost & E).
      rewrite E in H. injection H as <- _. right; left. eauto.
  - destruct (Z.le_gt_cases (remaining_tokens s - MIN_GENERATION_BUDGET) 0) as [Hb | Hb].
    + rewrite retriever_unfunded in H by exact Hb. injection H as <- _. tauto.
    + destruct (retriever_funded env s log) as (chunks & cost & E); [lia | ].
      rewrite E in H. injection H as <- _. do 3 right; left. eauto.
  - destruct (Z.lt_ge_cases (remaining_tokens s) GENERATOR_REQUIRED_BUDGET) as [Hb | Hb].
    + rewrite generator_degraded in H by exact Hb. injection H as <- _. tauto.
    + destruct (generator_funded env s log Hb) as (req & text & cost & E).
      rewrite E in H. injection H as <- _. do 5 right; left. eauto.
  - destruct (Z.lt_ge_cases (remaining_tokens s) CRITIC_REQUIRED_BUDGET) as [Hb | Hb].
    + rewrite critic_degraded in H by exact Hb. injection H as <- _. tauto.
    + destruct (critic_funded env s log Hb) as (req & cost & E).
      rewrite E in H. destruct (parse_score env _); [ | discriminate].
      injection H as <- _. do 7 right; left. eauto.
  - destruct (string_dec (draft_answer s) EmptyString) as [Hd | Hd].
    + rewrite summarizer_no_draft in H by exact Hd. injection H as <- _. tauto.
    + destruct (Z.lt_ge_cases (remaining_tokens s) SUMMARIZER_BUDGET) as [Hb | Hb].
      * rewrite summarizer_unfunded in H by assumption. injection H as <- _. tauto.
      * destruct (summarizer_funded env s log Hd Hb) as (req & text & cost & E).
        rewrite E in H. injection H as <- _. do 10 right; left. eauto.
  - tauto.
  - do 12 right. eauto.
Qed.

Ltac op_shapes H :=
  destruct (op_step_inv _ _ H)
    as [-> | [(? & ? & ->) | [-> | [(? & ? & ->) | [-> | [(? & ? & ->) | [->
       | [(? & ? & ->) | [-> | [-> | [(? & ? & ->) | [-> | (? & ? & ->)]]]]]]]]]]]].

(** One operation never removes or lowers a ledger entry, and keeps the
    entries non-negative. *)
Lemma consume_entry_grows s name cost other v :
  tokens_used s !! other = Some v ->
  exists v', tokens_used (consume_tokens s name cost) !! other = Some v' /\ v <= v'.
Proof.
  intros Hv. rewrite consume_tokens_used.
  destruct (decide (name = other)) as [-> | Hne].
  - rewrite lookup_insert_eq. eexists. split; [reflexivity | ].
    unfold used. rewrite Hv. simpl. lia.
  - rewrite lookup_insert_ne by exact Hne. eauto with lia.
Qed.

Lemma op_step_entry_grows s s' name v :
  op_step env s s' ->
  tokens_used s !! name = Some v ->
  exists v', tokens_used s' !! name = Some v' /\ v <= v'.
Proof.
  intros Hstep Hv. op_shapes Hstep;
    first [ exact (consume_entry_grows _ _ _ _ _ Hv)
          | exists v; split; [exact Hv | lia] ].
Qed.

Lemma consume_entries_nonneg s name cost :
  entries_nonneg (tokens_used s) ->
  entries_nonneg (tokens_used (consume_tokens s name cost)).
Proof.
  intros Hpos other v. rewrite consume_tokens_used.
  destruct (decide (name = other)) as [-> | Hne].
  - rewrite lookup_insert_eq. intros [= <-]. unfold used.
    destruct (tokens_used s !! other) as [w | ] eqn:E; simpl.
    + specialize (Hpos _ _ E). lia.
    + lia.
  - rewrite lookup_insert_ne by exact Hne. apply Hpos.
Qed.

Lemma op_step_entries_nonneg s s' :
  op_step env s s' ->
  entries_nonneg (tokens_used s) -> entries_nonneg (tokens_used s').
Proof.
  intros Hstep Hpos. op_shapes Hstep;
    first [ exact (consume_entries_nonneg _ _ _ Hpos) | exact Hpos ].
Qed.

Lemma reachable_entries_nonneg s s' :
  reachable env s s' ->
  entries_nonneg (tokens_used s) -> entries_nonneg (tokens_used s').
Proof.
  intros Hreach Hpos.
  refine (rtc_ind_r (fun st => entries_nonneg (tokens_used st)) s _ _ s' Hreach).
  - exact Hpos.
  - intros s1 s2 _ Hstep IH. exact (op_step_entries_nonneg s1 s2 Hstep IH).
Qed.

(** X1: no operation, and so no sequence of operations, removes a ledger
    entry or lowers it; and a ledger without negative entries stays without
    them, as does the one of a fresh request. *)
Theorem ledger_entries_only_grow s s' :
  reachable env s s' ->
  (forall name v,
     tokens_used s !! name = Some v ->
     exists v', tokens_used s' !! name = Some v' /\ v <= v')
  /\ (entries_nonneg (tokens_used s) -> entries_nonneg (tokens_used s')).
Proof.
  intros Hreach. split; [ | apply reachable_entries_nonneg, Hreach].
  refine (rtc_ind_r
            (fun st =>
               forall name v,
                 tokens_used s !! name = Some v ->
                 exists v', tokens_used st !! name = Some v' /\ v <= v')
            s _ _ s' Hreach).
  - intros name v Hv. exists v. split; [exact Hv | lia].
  - intros s1 s2 _ Hstep IH name v Hv.
    destruct (IH name v Hv) as (v1 & Hv1 & Hle1).
    destruct (op_step_entry_grows s1 s2 name v1 Hstep Hv1) as (v2 & Hv2 & Hle2).
    exists v2. split; [exact Hv2 | lia].
Qed.

(** X2: a remaining budget that is not negative is never raised by an
    operation: it stays between 0 and its earlier value. *)
Theorem remaining_never_refunded s s' :
  reachable env s s' ->
  0 <= remaining_tokens s ->
  0 <= remaining_tokens s' <= remaining_tokens s.
Proof.
  intros Hreach Hpos.
  refine (rtc_ind_r (fun st => 0 <= remaining_tokens st <= remaining_tokens s)
            s _ _ s' Hreach).
  - lia.
  - intros s1 s2 _ Hstep IH. op_shapes Hstep; simpl; lia.
Qed.

(** X3: the request's query, its budget ceiling and its step ceiling are
    never written by any operation. *)
Theorem request_fields_immutable s s' :
  reachable env s s' ->
  user_query s' = user_query s
  /\ total_token_budget s' = total_token_budget s
  /\ max_steps s' = max_steps s.
Proof.
  intros Hreach.
  refine (rtc_ind_r
            (fun st => user_query st = user_query s
                       /\ total_token_budget st = total_token_budget s
                       /\ max_steps st = max_steps s)
            s _ _ s' Hreach).
  - repeat split.
  - intros s1 s2 _ Hstep IH. op_shapes Hstep; simpl; exact IH.
Qed.

End OperationShapes.

(** ** What a pass and a run add up to *)

Section RunFacts.

Context (env : Env).

Implicit Types (s : AgentState) (log : list Call).

Lemma consume_other_entry s name cost other :
  In name STAGE_NAMES -> ~ In other STAGE_NAMES ->
  tokens_used (consume_tokens s name cost) !! other = tokens_used s !! other.
Proof.
  intros Hin Hout. rewrite consume_tokens_used. apply lookup_insert_ne.
  intros ->. contradiction.
Qed.

(** The facts a run is assembled from, for one stage of a pass. *)
Lemma stage_node_facts s log s' log' :
  planner_node env s log = Returns (s', log')
  \/ retriever_node env s log = Returns (s', log')
  \/ generator_node env s log = Returns (s', log')
  \/ critic_node env s log = Returns (s', log') ->
  (exists calls, log' = log ++ calls /\ (length calls <= 1)%nat)
  /\ step_count s <= step_count s' <= step_count s + 1
  /\ max_steps s' = max_steps s
  /\ final_answer s' = final_answer s
  /\ (forall name, ~ In name STAGE_NAMES ->
      tokens_used s' !! name = tokens_used s !! name).
Proof.
  assert (Hnil : forall l : list Call, exists calls, l = l ++ calls /\ (length calls <= 1)%nat).
  { intros l. exists nil. rewrite app_nil_r. split; [reflexivity | simpl; lia]. }
  assert (Hone : forall (l : list Call) c,
             exists calls, l ++ c :: nil = l ++ calls /\ (length calls <= 1)%nat).
  { intros l c. exists (c :: nil). split; [reflexivity | simpl; lia]. }
  intros [H | [H | [H | H]]].
  - destruct (Z.lt_ge_cases (remaining_tokens s) PLANNER_REQUIRED_BUDGET) as [Hb | Hb].
    + rewrite planner_degraded in H by exact Hb. injection H as <- <-.
      split; [apply Hnil | ]. simpl. repeat split; lia.
    + destruct (planner_funded env s log Hb) as (req & text & cost & E).
      rewrite E in H. injection H as <- <-.
      split; [apply Hone | ]. simpl. split; [lia | ]. repeat split.
      intros name Hout.
      apply (consume_other_entry (set_plan s text) "planner" cost name); simpl; tauto.
  - destruct (Z.le_gt_cases (remaining_tokens s - MIN_GENERATION_BUDGET) 0) as [Hb | Hb].
    + rewrite retriever_unfunded in H by exact Hb. injection H as <- <-.
      split; [apply Hnil | ]. simpl. repeat split; lia.
    + destruct (retriever_funded env s log) as (chunks & cost & E); [lia | ].
      rewrite E in H. injection H as <- <-.
      split; [apply Hone | ]. simpl. split; [lia | ]. repeat split.
      intros name Hout.
      apply (consume_other_entry (set_retrieved_chunks s chunks) "retriever" cost name);
        simpl; tauto.
  - destruct (Z.lt_ge_cases (remaining_tokens s) GENERATOR_REQUIRED_BUDGET) as [Hb | Hb].
    + rewrite generator_degraded in H by exact Hb. injection H as <- <-.
      split; [apply Hnil | ]. simpl. repeat split; lia.
    + destruct (generator_funded env s log Hb) as (req & text & cost & E).
      rewrite E in H. injection H as <- <-.
      split; [apply Hone | ]. simpl. split; [lia | ]. repeat split.
      intros name Hout.
      apply (consume_other_entry (set_draft_answer s text) "generator" cost name);
        simpl; tauto.
  - destruct (Z.lt_ge_cases (remaining_tokens s) CRITIC_REQUIRED_BUDGET) as [Hb | Hb].
    + rewrite critic_degraded in H by exact Hb. injection H as <- <-.
      split; [apply Hnil | ]. simpl. repeat split; lia.
    + destruct (critic_funded env s log Hb) as (req & cost & E).
      rewrite E in H. destruct (parse_score env _) as [score | ]; [ | discriminate].
      injection H as <- <-.
      split; [apply Hone | ]. simpl. split; [lia | ]. repeat split.
      intros name Hout.
      apply (consume_other_entry (set_quality_score s score) "critic" cost name);
        simpl; tauto.
Qed.

(** A pass that returns has made at most four calls and has run the planner
    at most once; it writes neither [final_answer] nor a foreign ledger
    entry. *)
Lemma critique_pass_facts s log s4 log4 :
  critique_pass env s log = Returns (s4, log4) ->
  (exists calls, log4 = log ++ calls /\ (length calls <= 4)%nat)
  /\ step_count s <= step_count s4 <= step_count s + 1
  /\ max_steps s4 = max_steps s
  /\ final_answer s4 = final_answer s
  /\ (forall name, ~ In name STAGE_NAMES ->
      tokens_used s4 !! name = tokens_used s !! name).
Proof.
  intros Hpass. unfold critique_pass in Hpass.
  destruct (planner_returns env s log) as (s1 & l1 & E1).
  rewrite (bind_returns _ _ _ _ _ E1) in Hpass.
  destruct (retriever_returns env s1 l1) as (s2 & l2 & E2).
  rewrite (bind_returns _ _ _ _ _ E2) in Hpass.
  destruct (generator_returns env s2 l2) as (s3 & l3 & E3).
  rewrite (bind_returns _ _ _ _ _ E3) in Hpass.
  destruct (stage_node_facts s log s1 l1 (or_introl E1))
    as ((c1 & -> & Hc1) & Hs1 & Hm1 & Hf1 & Hk1).
  destruct (stage_node_facts s1 _ s2 l2 (or_intror (or_introl E2)))
    as ((c2 & -> & Hc2) & Hs2 & Hm2 & Hf2 & Hk2).
  destruct (stage_node_facts s2 _ s3 l3 (or_intror (or_intror (or_introl E3))))
    as ((c3 & -> & Hc3) & Hs3 & Hm3 & Hf3 & Hk3).
  destruct (stage_node_facts s3 _ s4 log4 (or_intror (or_intror (or_intror Hpass))))
    as ((c4 & -> & Hc4) & Hs4 & Hm4 & Hf4 & Hk4).
  split.
  { exists (c1 ++ c2 ++ c3 ++ c4). split.
    - rewrite <- !app_assoc. reflexivity.
    - rewrite !length_app. lia. }
  assert (Hstep : step_count s4 = step_count s1).
  { destruct (later_stage_counters env s1 _ s2 _ (or_introl E2)) as (H2 & _).
    destruct (later_stage_counters env s2 _ s3 _ (or_intror (or_introl E3))) as (H3 & _).
    destruct (later_stage_counters env s3 _ s4 _ (or_intror (or_intror Hpass)))
      as (H4 & _).
    lia. }
  split; [lia | ]. split; [congruence | ]. split; [congruence | ].
  intros name Hout. rewrite Hk4, Hk3, Hk2, Hk1 by exact Hout. reflexivity.
Qed.

(** The summarizer makes at most one call and never leaves the final answer
    empty. *)
Lemma summarizer_facts s log s' log' :
  summarizer_node env s log = Returns (s', log') ->
  (exists calls, log' = log ++ calls /\ (length calls <= 1)%nat)
  /\ status s' = "COMPLETED_WITH_SUMMARY"
  /\ final_answer s' <> EmptyString
  /\ step_count s' = step_count s
  /\ max_steps s' = max_steps s
  /\ (forall name, ~ In name STAGE_NAMES ->
      tokens_used s' !! name = tokens_used s !! name).
Proof.
  unfold summarizer_node, bind, ret, chat.
  destruct (draft_answer s) as [ | a d] eqn:Hd; simpl.
  - intros [= <- <-]. split.
    + exists nil. rewrite app_nil_r. split; [reflexivity | simpl; lia].
    + simpl. repeat split. discriminate.
  - destruct (SUMMARIZER_BUDGET <=? remaining_tokens s).
    + intros [= <- <-]. split.
      * eexists (_ :: nil). split; [reflexivity | simpl; lia].
      * simpl. split; [reflexivity | ]. split.
        { unfold content_or. simpl.
          destruct (content _) as [[ | b t] | ]; simpl; discriminate. }
        split; [reflexivity | ]. split; [reflexivity | ].
        intros name Hout. apply lookup_insert_ne. intros <-. apply Hout. simpl. tauto.
    + intros [= <- <-]. split.
      * exists nil. rewrite app_nil_r. split; [reflexivity | simpl; lia].
      * simpl. repeat split. discriminate.
Qed.

(** Everything the following theorems say about a run that returns. *)
Lemma invoke_facts fuel :
  forall s log final n log',
    invoke env fuel s log = Returns (Some (final, n), log') ->
    (1 <= n)%nat
    /\ Z.of_nat n <= Z.max 1 (max_steps s - step_count s)
    /\ step_count final - step_count s <= Z.of_nat n <= step_count final - step_count s + 1
    /\ step_count s <= step_count final <= Z.max (step_count s + 1) (max_steps s)
    /\ max_steps final = max_steps s
    /\ (exists calls, log' = log ++ calls /\ (length calls <= 4 * n + 1)%nat)
    /\ (forall name, ~ In name STAGE_NAMES ->
        tokens_used final !! name = tokens_used s !! name)
    /\ ((status final = "COMPLETED"
         /\ final_answer final = draft_answer final
         /\ fge (quality_score final) QUALITY_THRESHOLD = true
         /\ BUDGET_THRESHOLD < remaining_tokens final)
        \/ (status final = "COMPLETED_WITH_SUMMARY"
            /\ final_answer final <> EmptyString)).
Proof.
  induction fuel as [ | fuel IH]; intros s log final n log' Hrun; [discriminate | ].
  simpl invoke in Hrun. unfold bind at 1 in Hrun.
  destruct (critique_pass env s log) as [[s4 log4] | e] eqn:Hpass; [ | discriminate].
  destruct (critique_pass_facts s log s4 log4 Hpass)
    as ((c4 & -> & Hc4) & Hs4 & Hm4 & _ & Hk4).
  destruct (should_continue s4) eqn:Hroute.
  - injection Hrun as <- <- <-. simpl.
    split; [lia | ]. split; [lia | ]. split; [lia | ]. split; [lia | ].
    split; [exact Hm4 | ].
    split; [exists c4; split; [reflexivity | lia] | ]. split; [exact Hk4 | ].
    left. split; [reflexivity | ]. split; [reflexivity | ].
    unfold should_continue in Hroute.
    destruct (String.prefix _ _); [discriminate | ].
    destruct (Z.leb_spec (remaining_tokens s4) BUDGET_THRESHOLD); [discriminate | ].
    destruct (fge _ _) eqn:Eq; [split; [reflexivity | assumption] | ].
    destruct (_ <=? _); discriminate.
  - destruct (loop_after_funded_pass env s log s4 _ Hpass Hroute) as (Hc & _ & Hlt & _).
    unfold bind in Hrun.
    destruct (invoke env fuel s4 (log ++ c4)) as [[[[f m] | ] l] | e] eqn:Hrest;
      try discriminate.
    injection Hrun as <- <- <-.
    destruct (IH s4 _ f m l Hrest)
      as (Hn & Hnb & Hsn & Hsf & Hmf & (cs & -> & Hcs) & Hkf & Hterm).
    split; [lia | ]. split; [lia | ]. split; [lia | ]. split; [lia | ].
    split; [congruence | ].
    split.
    { exists (c4 ++ cs). split; [rewrite app_assoc; reflexivity | ].
      rewrite length_app. lia. }
    split; [ | exact Hterm].
    intros name Hout. rewrite Hkf, Hk4 by exact Hout. reflexivity.
  - unfold bind in Hrun.
    destruct (summarizer_node env s4 (log ++ c4)) as [[s5 l5] | e] eqn:Hsum;
      [ | discriminate].
    injection Hrun as <- <- <-.
    destruct (summarizer_facts s4 _ s5 l5 Hsum)
      as ((c5 & -> & Hc5) & Hst & Hfa & Hs5 & Hm5 & Hk5).
    split; [lia | ]. split; [lia | ]. split; [lia | ]. split; [lia | ].
    split; [congruence | ].
    split.
    { exists (c4 ++ c5). split; [rewrite app_assoc; reflexivity | ].
      rewrite length_app. lia. }
    split; [ | right; split; assumption].
    intros name Hout. rewrite Hk5, Hk4 by exact Hout. reflexivity.
Qed.

(** X4: a run of a fresh request that returns has executed the planner at
    most [max(1, max_steps)] times, and [step_count] is the number of router
    evaluations or one less (the last pass may have been starved). *)
Theorem run_step_budget fuel q total steps log final n log' :
  invoke env fuel (initialize_state q total steps) log = Returns (Some (final, n), log') ->
  0 <= step_count final <= Z.max 1 steps
  /\ step_count final <= Z.of_nat n <= step_count final + 1
  /\ Z.of_nat n <= Z.max 1 steps.
Proof.
  intros Hrun.
  destruct (invoke_facts fuel _ _ _ _ _ Hrun) as (_ & Hnb & Hsn & Hsf & _).
  simpl in *. lia.
Qed.

(** X5: a run that returns has only appended to the call log, at most four
    calls per router evaluation and one for the summarizer: at most
    [4 * max(1, max_steps) + 1] external calls per request. *)
Theorem run_call_budget fuel q total steps log final n log' :
  invoke env fuel (initialize_state q total steps) log = Returns (Some (final, n), log') ->
  exists calls,
    log' = log ++ calls
    /\ (length calls <= 4 * n + 1)%nat
    /\ Z.of_nat (length calls) <= 4 * Z.max 1 steps + 1.
Proof.
  intros Hrun.
  destruct (invoke_facts fuel _ _ _ _ _ Hrun) as (_ & Hnb & _ & _ & _ & Hcalls & _).
  destruct Hcalls as (calls & -> & Hlen). simpl in Hnb.
  exists calls. split; [reflexivity | split; [exact Hlen | lia]].
Qed.

(** X6: a run that returns ends in one of two ways: [COMPLETED], with the
    draft as final answer, a quality score of at least 0.85 and more than 500
    tokens left; or [COMPLETED_WITH_SUMMARY], with a final answer that is not
    empty. *)
Theorem run_terminal_state fuel s log final n log' :
  invoke env fuel s log = Returns (Some (final, n), log') ->
  (status final = "COMPLETED"
   /\ final_answer final = draft_answer final
   /\ fge (quality_score final) QUALITY_THRESHOLD = true
   /\ BUDGET_THRESHOLD < remaining_tokens final)
  \/ (status final = "COMPLETED_WITH_SUMMARY"
      /\ final_answer final <> EmptyString).
Proof.
  intros Hrun. apply (invoke_facts fuel _ _ _ _ _ Hrun).
Qed.

(** A run is a sequence of operations. *)
Lemma invoke_reachable fuel :
  forall s log final n log',
    invoke env fuel s log = Returns (Some (final, n), log') -> reachable env s final.
Proof.
  induction fuel as [ | fuel IH]; intros s log final n log' Hrun; [discriminate | ].
  simpl invoke in Hrun. unfold bind at 1 in Hrun.
  destruct (critique_pass env s log) as [[s4 log4] | e] eqn:Hpass; [ | discriminate].
  pose proof (critique_pass_reachable env s log s4 log4 Hpass) as Hreach.
  unfold reachable in *.
  destruct (should_continue s4).
  - injection Hrun as <- _ _. eapply rtc_r; [exact Hreach | apply step_finalize].
  - unfold bind in Hrun.
    destruct (invoke env fuel s4 log4) as [[[[f m] | ] l] | e] eqn:Hrest; try discriminate.
    injection Hrun as <- _ _.
    eapply rtc_trans; [exact Hreach | exact (IH _ _ _ _ _ Hrest)].
  - unfold bind in Hrun.
    destruct (summarizer_node env s4 log4) as [[s5 l5] | e] eqn:Hsum; [ | discriminate].
    injection Hrun as <- _ _.
    eapply rtc_r; [exact Hreach | exact (step_summarizer env _ _ _ _ Hsum)].
Qed.


(** X7: the ledger of a run of a fresh request only has entries for the five
    stages, and none of them is negative. *)
Theorem run_ledger_keys fuel q total steps log final n log' :
  invoke env fuel (initialize_state q total steps) log = Returns (Some (final, n), log') ->
  forall name v,
    tokens_used final !! name = Some v ->
    In name STAGE_NAMES /\ 0 <= v.
Proof.
  intros Hrun name v Hv.
  destruct (invoke_facts fuel _ _ _ _ _ Hrun) as (_ & _ & _ & _ & _ & _ & Hkeys & _).
  pose proof (invoke_reachable fuel _ _ _ _ _ Hrun) as Hreach.
  split.
  - destruct (In_dec string_dec name STAGE_NAMES) as [Hin | Hout]; [exact Hin | ].
    rewrite (Hkeys name Hout) in Hv. simpl in Hv. rewrite lookup_empty in Hv.
    discriminate.
  - apply (reachable_entries_nonneg env _ _ Hreach) in Hv; [exact Hv | ].
    intros k w H. simpl in H. rewrite lookup_empty in H. discriminate.
Qed.

(** X8: with fewer than 400 tokens left no stage can pay for anything: the
    run makes no external call at all, takes one pass, leaves the ledger as
    it was and ends as a summary whose answer is the draft if there is one
    and the fallback message otherwise. *)
Theorem exhausted_budget_run fuel s log :
  remaining_tokens s < SUMMARIZER_BUDGET ->
  exists final,
    invoke env (S fuel) s log = Returns (Some (final, 1%nat), log)
    /\ status final = "COMPLETED_WITH_SUMMARY"
    /\ remaining_tokens final = remaining_tokens s
    /\ tokens_used final = tokens_used s
    /\ step_count final = step_count s
    /\ final_answer final
       = (if str_truthy (draft_answer s) then draft_answer s else FALLBACK_ANSWER).
Proof.
  intros Hlow. unfold SUMMARIZER_BUDGET in Hlow. simpl invoke.
  erewrite bind_returns;
    [ | apply critique_pass_starved; unfold PLANNER_REQUIRED_BUDGET; lia].
  replace (should_continue _) with GoSummarize by reflexivity.
  destruct (string_dec (draft_answer s) EmptyString) as [Hd | Hd].
  - erewrite bind_returns; [ | apply summarizer_no_draft; exact Hd].
    eexists. split; [reflexivity | ]. simpl. rewrite Hd. repeat split.
  - erewrite bind_returns;
      [ | apply summarizer_unfunded; [exact Hd | simpl; unfold SUMMARIZER_BUDGET; lia]].
    eexists. split; [reflexivity | ]. simpl.
    destruct (draft_answer s); [congruence | ]. repeat split.
Qed.

(** X9: a critic that skips its evaluation can never finish the run as
    [COMPLETED]: its default score is below the quality threshold, so the
    router answers summarize or loop. *)
Theorem degraded_critic_never_ends s log :
  remaining_tokens s < CRITIC_REQUIRED_BUDGET ->
  exists s',
    critic_node env s log = Returns (s', log)
    /\ quality_score s' = DEFAULT_SCORE
    /\ should_continue s' <> GoEnd.
Proof.
  intros Hlow. eexists. split; [apply critic_degraded, Hlow | ].
  split; [reflexivity | ].
  unfold should_continue. simpl.
  destruct (String.prefix _ _); [discriminate | ].
  destruct (_ <=? _); [discriminate | ].
  destruct (_ <=? _); discriminate.
Qed.

End RunFacts.

(** *** Runs of the sample service *)

Ltac sample_run thm :=
  match goal with
  | |- context [invoke ?e ?f ?s ?l] =>
      let E := fresh "E" in
      destruct (invoke e f s l) as [[[[final n] | ] log'] | exc] eqn:E;
      [ exists final, n, log'; split; [reflexivity | exact (thm e _ _ _ _ _ _ _ _ E)]
      | vm_compute in E; discriminate E
      | vm_compute in E; discriminate E ]
  end.

(** X4 on scenario A. *)
Lemma run_step_budget_witness :
  exists final n log',
    invoke (sample_env SCORE_05) 6 (initialize_state "q" 10000 5) nil
    = Returns (Some (final, n), log')
    /\ (0 <= step_count final <= Z.max 1 5
        /\ step_count final <= Z.of_nat n <= step_count final + 1
        /\ Z.of_nat n <= Z.max 1 5).
Proof. sample_run run_step_budget. Defined.

(** X5 on scenario A. *)
Lemma run_call_budget_witness :
  exists final n log',
    invoke (sample_env SCORE_05) 6 (initialize_state "q" 10000 5) nil
    = Returns (Some (final, n), log')
    /\ (exists calls,
          log' = nil ++ calls
          /\ (length calls <= 4 * n + 1)%nat
          /\ Z.of_nat (length calls) <= 4 * Z.max 1 5 + 1).
Proof. sample_run run_call_budget. Defined.

(** The bound of X5 is met on scenario A: 21 calls. *)
Example run_call_budget_tight :
  match invoke (sample_env SCORE_05) 6 (initialize_state "q" 10000 5) nil with
  | Returns (Some (_, n), log') => n = 5%nat /\ length log' = 21%nat
  | _ => False
  end.
Proof. vm_compute. split; reflexivity. Qed.

(** X7 on scenario A. *)
Lemma run_ledger_keys_witness :
  exists final n log',
    invoke (sample_env SCORE_05) 6 (initialize_state "q" 10000 5) nil
    = Returns (Some (final, n), log')
    /\ (forall name v,
          tokens_used final !! name = Some v -> In name STAGE_NAMES /\ 0 <= v).
Proof. sample_run run_ledger_keys. Defined.

(** X6 on scenario C. *)
Lemma run_terminal_state_witness :
  exists final n log',
    invoke (sample_env SCORE_09) 6 (initialize_state "q" 10000 5) nil
    = Returns (Some (final, n), log')
    /\ ((status final = "COMPLETED"
         /\ final_answer final = draft_answer final
         /\ fge (quality_score final) QUALITY_THRESHOLD = true
         /\ BUDGET_THRESHOLD < remaining_tokens final)
        \/ (status final = "COMPLETED_WITH_SUMMARY"
            /\ final_answer final <> EmptyString)).
Proof.
  destruct (invoke (sample_env SCORE_09) 6 (initialize_state "q" 10000 5) nil)
    as [[[[final n] | ] log'] | exc] eqn:E.
  - exists final, n, log'. split; [reflexivity | ].
    exact (run_terminal_state (sample_env SCORE_09) _ _ _ _ _ _ E).
  - vm_compute in E. discriminate E.
  - vm_compute in E. discriminate E.
Defined.

(** X8 on a request with a budget of 399. *)
Lemma exhausted_budget_run_witness :
  exists final,
    invoke (sample_env SCORE_05) 1 (initialize_state "q" 399 5) nil
    = Returns (Some (final, 1%nat), nil)
    /\ status final = "COMPLETED_WITH_SUMMARY"
    /\ remaining_tokens final = 399
    /\ tokens_used final = ∅
    /\ step_count final = 0
    /\ final_answer final = FALLBACK_ANSWER.
Proof.
  apply (exhausted_budget_run (sample_env SCORE_05) 0 (initialize_state "q" 399 5) nil).
  reflexivity.
Defined.

(** X9 on a state with 700 tokens left. *)
Lemma degraded_critic_never_ends_witness :
  exists s',
    critic_node (sample_env SCORE_09) (initialize_state "q" 700 5) nil = Returns (s', nil)
    /\ quality_score s' = DEFAULT_SCORE
    /\ should_continue s' <> GoEnd.
Proof.
  apply (degraded_critic_never_ends (sample_env SCORE_09) (initialize_state "q" 700 5) nil).
  reflexivity.
Defined.

(** *** The operations on concrete states *)

Lemma after_planner_reachable :
  reachable (sample_env SCORE_05) (initialize_state "q" 10000 5) after_planner.
Proof.
  apply rtc_once.
  apply (step_planner (sample_env SCORE_05) (initialize_state "q" 10000 5) nil _
           (ChatCall {| system_content := PLANNER_SYSTEM_PROMPT;
                        user_content := "Create a plan to answer: q";
                        max_tokens := 300;
                        temperature := 3 # 10 |} :: nil)).
  reflexivity.
Qed.

(** X1 on a further charge to the planner's entry: 150 becomes 160. *)
Lemma ledger_entries_only_grow_witness :
  exists v',
    tokens_used (consume_tokens after_planner "planner" 10) !! "planner" = Some v'
    /\ 150 <= v'.
Proof.
  destruct (ledger_entries_only_grow (sample_env SCORE_05) after_planner
              (consume_tokens after_planner "planner" 10)) as (Hgrow & _).
  - apply rtc_once, step_consume.
  - apply (Hgrow "planner" 150). reflexivity.
Defined.

(** X2 after one planner run: 9850 of 10000 tokens are left. *)
Lemma remaining_never_refunded_witness :
  0 <= remaining_tokens after_planner <= 10000.
Proof.
  apply (remaining_never_refunded (sample_env SCORE_05)
           (initialize_state "q" 10000 5) after_planner).
  - exact after_planner_reachable.
  - simpl. lia.
Defined.

(** X3 after one planner run. *)
Lemma request_fields_immutable_witness :
  user_query after_planner = "q"
  /\ total_token_budget after_planner = 10000
  /\ max_steps after_planner = 5.
Proof.
  apply (request_fields_immutable (sample_env SCORE_05)
           (initialize_state "q" 10000 5) after_planner).
  exact after_planner_reachable.
Defined.

(** ** [POST /query] *)

Section QueryEndpoint.

Context (settings : Settings) (env : Env) (passes_allowed : nat).
Context (str_exc : pyexc -> string) (str_limit : string).

Implicit Types (s : AgentState) (log : list Call).




End QueryEndpoint.

(** ** The vector store and [POST /documents] *)

Section VectorStore.

Context (renv : Rag.RagEnv) (str_exc : pyexc -> string).

Implicit Types (log : list Rag.RagCall).











(** X13: [similarity_search] returns the empty list without any call for an
    empty query, and after the embedding call alone when the embedding comes
    back empty; otherwise it queries the collection once, for [k] results and
    this one embedding, and returns the first row of documents, the empty
    list when the result has no documents at all, or raises [IndexError] when
    the list of rows is empty. *)
Theorem similarity_search_contract query k log :
  (query = EmptyString ->
   Rag.similarity_search renv query k log = (Rag.Done nil, log))
  /\ (query <> EmptyString ->
      Rag.model_embed_query renv log query = nil ->
      Rag.similarity_search renv query k log
      = (Rag.Done nil, log ++ Rag.EmbedQuery query :: nil))
  /\ (query <> EmptyString ->
      Rag.model_embed_query renv log query <> nil ->
      let embedding := Rag.model_embed_query renv log query in
      let log1 := log ++ Rag.EmbedQuery query :: nil in
      let log2 := log1 ++ Rag.CollectionQuery (embedding :: nil) k :: nil in
      Rag.similarity_search renv query k log
      = (match Rag.collection_query renv log1 (embedding :: nil) k with
         | None => Rag.Done nil
         | Some (docs :: _) => Rag.Done docs
         | Some nil => Rag.IndexError
         end, log2)).
Proof.
  unfold Rag.similarity_search, Rag.embed_query.
  split; [ | split].
  - intros ->. reflexivity.
  - intros Hq Hemb. destruct query; [congruence | ]. cbn [str_truthy].
    unfold Rag.rbind, Rag.rcall. rewrite Hemb. reflexivity.
  - intros Hq Hemb. cbv zeta. destruct query as [ | c q]; [congruence | ].
    cbn [str_truthy]. unfold Rag.rbind at 1. unfold Rag.rcall at 1.
    destruct (Rag.model_embed_query renv log (String c q)) as [ | x e] eqn:E;
      [congruence | ].
    cbn [list_truthy]. unfold Rag.rbind, Rag.rcall, Rag.rret.
    destruct (Rag.collection_query renv _ _ k) as [[ | docs rows] | ]; reflexivity.
Qed.

End VectorStore.

(** *** The store on concrete inputs *)


(** The ids of that batch. *)
Example add_texts_ids :
  Rag.make_ids sample_renv 0 2 nil
  = (Rag.Done ("doc-3-0" :: "doc-3-1" :: nil),
     Rag.CollectionCount :: Rag.CollectionCount :: nil).
Proof. vm_compute. reflexivity. Qed.


(** The calls of that request, one by one. *)
Example ingest_documents_calls :
  Api.ingest_documents sample_renv (fun _ => "error")
    {| Api.req_texts := "a" :: "b" :: nil; Api.req_metadatas := None |} nil
  = (Api.Ok200 {| Api.resp_message := "Documents ingested successfully";
                  Api.resp_count := 2 |},
     Rag.EmbedDocuments ("a" :: "b" :: nil)
       :: Rag.CollectionCount :: Rag.CollectionCount
       :: Rag.CollectionAdd ("doc-3-0" :: "doc-3-1" :: nil) ("a" :: "b" :: nil)
            (((1 # 2)%Q :: nil) :: ((1 # 2)%Q :: nil) :: nil) None
       :: Rag.ClientPersist :: nil).
Proof. vm_compute. reflexivity. Qed.

(** X13 on an empty query and on a query for two chunks. *)
Lemma similarity_search_contract_witness :
  Rag.similarity_search sample_renv EmptyString 4 nil = (Rag.Done nil, nil)
  /\ Rag.similarity_search sample_renv "q" 2 nil
     = (Rag.Done ("chunk" :: "chunk" :: nil),
        Rag.EmbedQuery "q" :: Rag.CollectionQuery (((1 # 2)%Q :: nil) :: nil) 2 :: nil).
Proof.
  destruct (similarity_search_contract sample_renv EmptyString 4 nil) as (Hempty & _).
  destruct (similarity_search_contract sample_renv "q" 2 nil) as (_ & _ & Hquery).
  split.
  - apply Hempty. reflexivity.
  - apply Hquery; discriminate.
Defined.


(** The same request in full: the defaults apply, five passes run, and the
    ledger adds up to 2740 tokens. *)
Example query_defaults :
  match Api.query (field_defaults "key") (sample_env SCORE_05) 25 (fun _ => "error")
          "limit reached"
          {| Api.req_query := "q"; Api.req_token_budget := Some 0;
             Api.req_max_steps := None |} nil with
  | Api.Ok200 resp =>
      Api.resp_status resp = "COMPLETED_WITH_SUMMARY"
      /\ Api.resp_steps_executed resp = 5
      /\ Api.resp_total_tokens resp = 2740
  | Api.HTTPException _ _ => False
  end.
Proof. vm_compute. repeat split. Qed.

(** The two ways to a 500: a graph library that allows three passes stops
    the same request, and a critic whose reply is a JSON array makes the node
    raise. *)
Example query_server_errors :
  Api.query (field_defaults "key") (sample_env SCORE_05) 3 (fun _ => "error")
    "limit reached"
    {| Api.req_query := "q"; Api.req_token_budget := None; Api.req_max_steps := None |}
    nil
  = Api.HTTPException 500 "Execution error: limit reached"
  /\ Api.query (field_defaults "key") (sample_env "[0.9]") 25
       (fun _ => "error") "limit reached"
       {| Api.req_query := "q"; Api.req_token_budget := None; Api.req_max_steps := None |}
       nil
     = Api.HTTPException 500 "Execution error: error".
Proof. vm_compute. split; reflexivity. Qed.

(** ** The encoder cache *)

Section EncoderCache.

Context (encoding_for_model : string -> option Tokenizer.Encoding) (settings : Settings).

Implicit Types (st : Tokenizer.Encoders).

Lemma get_encoder_facts model st encoder st' :
  Tokenizer.coherent encoding_for_model st ->
  Tokenizer._get_encoder encoding_for_model model st = Some (encoder, st') ->
  encoding_for_model model = Some encoder
  /\ Tokenizer.coherent encoding_for_model st'
  /\ Tokenizer.ENCODERS st' !! model = Some encoder
  /\ (forall m e, Tokenizer.ENCODERS st !! m = Some e -> Tokenizer.ENCODERS st' !! m = Some e).
Proof.
  intros (Hsound & Hreq & Hnodup). unfold Tokenizer._get_encoder.
  destruct (Tokenizer.ENCODERS st !! model) as [enc | ] eqn:Hcache.
  - intros [= <- <-]. split; [apply Hsound, Hcache | ].
    split; [repeat split; assumption | ]. split; [exact Hcache | trivial].
  - destruct (encoding_for_model model) as [enc | ] eqn:Hload; [ | discriminate].
    intros [= <- <-]. cbn [Tokenizer.ENCODERS Tokenizer.requested].
    split; [reflexivity | ]. split.
    + split; [ | split]; cbn [Tokenizer.ENCODERS Tokenizer.requested].
      * intros m e. destruct (decide (model = m)) as [<- | Hne].
        -- rewrite lookup_insert_eq. congruence.
        -- rewrite lookup_insert_ne by exact Hne. apply Hsound.
      * intros m Hin. apply in_app_or in Hin as [Hin | [<- | []]].
        -- destruct (decide (model = m)) as [<- | Hne].
           ++ rewrite lookup_insert_eq. eauto.
           ++ rewrite lookup_insert_ne by exact Hne. apply Hreq, Hin.
        -- rewrite lookup_insert_eq. eauto.
      * apply NoDup_ListNoDup, NoDup_app. split; [ | split].
        -- apply NoDup_ListNoDup. exact Hnodup.
        -- intros m Hm Hm'. apply list_elem_of_In in Hm, Hm'.
           destruct Hm' as [<- | []]. apply Hreq in Hm. rewrite Hcache in Hm.
           destruct Hm as [? Hm]. discriminate.
        -- apply NoDup_singleton.
    + split; [apply lookup_insert_eq | ].
      intros m e Hm. rewrite lookup_insert_ne; [exact Hm | ]. intros <-. congruence.
Qed.

(** X14: an estimate that returns on a coherent cache leaves it coherent (so
    tiktoken is asked for an encoder at most once per model), keeps every
    cached encoder, and is never negative; after an estimate of a text that
    is not empty, a later estimate for the same model that returns leaves the
    cache and the list of requests as they are: the encoder is not asked for
    again. *)
Theorem encoder_loaded_once text model st n st' :
  Tokenizer.coherent encoding_for_model st ->
  Tokenizer.estimate_tokens encoding_for_model settings text model st = Some (n, st') ->
  Tokenizer.coherent encoding_for_model st'
  /\ 0 <= n
  /\ (forall m e,
        Tokenizer.ENCODERS st !! m = Some e -> Tokenizer.ENCODERS st' !! m = Some e)
  /\ (text <> EmptyString ->
      forall text2 n2 st2,
        Tokenizer.estimate_tokens encoding_for_model settings text2 model st'
        = Some (n2, st2) ->
        st2 = st').
Proof.
  intros Hcoh. unfold Tokenizer.estimate_tokens.
  destruct text as [ | c text]; cbn [str_truthy].
  - intros [= <- <-]. split; [exact Hcoh | ]. split; [lia | ]. split; [trivial | ].
    congruence.
  - set (model_name := match model with
                       | Some m => str_or m (openai_model_name settings)
                       | None => openai_model_name settings
                       end).
    destruct (Tokenizer._get_encoder encoding_for_model model_name st)
      as [[encoder st1] | ] eqn:Hget; [ | discriminate].
    intros [= <- <-].
    destruct (get_encoder_facts _ _ _ _ Hcoh Hget) as (_ & Hcoh' & Hhit & Hkeep).
    split; [exact Hcoh' | ]. split; [lia | ]. split; [exact Hkeep | ].
    intros _ text2 n2 st2. destruct text2 as [ | c2 text2]; cbn [str_truthy].
    + intros [= _ <-]. reflexivity.
    + unfold Tokenizer._get_encoder. rewrite Hhit. intros [= _ <-]. reflexivity.
Qed.

(** X15: on a coherent cache, and when tiktoken knows the configured model,
    the cached estimator computes what the stages charge: the number of
    tokens of the configured model's encoder, and 0 for an empty text. *)
Theorem estimate_tokens_refines (env : Env) encoder text st :
  Tokenizer.coherent encoding_for_model st ->
  encoding_for_model (openai_model_name settings) = Some encoder ->
  (forall t, encode_len env t = length (encoder t)) ->
  exists st',
    Tokenizer.estimate_tokens encoding_for_model settings text None st
    = Some (Accounting.estimate_tokens env text, st')
    /\ Tokenizer.coherent encoding_for_model st'.
Proof.
  intros Hcoh Hmodel Hlen.
  unfold Tokenizer.estimate_tokens, Accounting.estimate_tokens.
  destruct text as [ | c text]; cbn [str_truthy].
  - eauto.
  - destruct (Tokenizer._get_encoder encoding_for_model (openai_model_name settings) st)
      as [[enc st1] | ] eqn:Hget.
    + destruct (get_encoder_facts _ _ _ _ Hcoh Hget) as (Henc & Hcoh' & _).
      assert (enc = encoder) as -> by congruence.
      exists st1. rewrite Hlen. split; [reflexivity | exact Hcoh'].
    + exfalso. unfold Tokenizer._get_encoder in Hget.
      destruct (Tokenizer.ENCODERS st !! openai_model_name settings); [discriminate | ].
      rewrite Hmodel in Hget. discriminate.
Qed.

End EncoderCache.

Lemma fresh_encoders_coherent efm : Tokenizer.coherent efm fresh_encoders.
Proof.
  split; [ | split].
  - intros m e H. simpl in H. rewrite lookup_empty in H. discriminate.
  - intros m [].
  - constructor.
Qed.

(** X14 on a fresh cache: the first estimate loads the encoder of [gpt-4o],
    and no later estimate touches the cache. *)
Lemma encoder_loaded_once_witness :
  exists st',
    Tokenizer.estimate_tokens sample_encoding_for_model (field_defaults "key")
      "four" None fresh_encoders
    = Some (4, st')
    /\ Tokenizer.requested st' = "gpt-4o" :: nil
    /\ (forall text2 n2 st2,
          Tokenizer.estimate_tokens sample_encoding_for_model (field_defaults "key")
            text2 None st'
          = Some (n2, st2) ->
          st2 = st').
Proof.
  eexists. split; [reflexivity | ]. split; [reflexivity | ].
  eapply (encoder_loaded_once sample_encoding_for_model (field_defaults "key")
            "four" None fresh_encoders 4).
  - apply fresh_encoders_coherent.
  - reflexivity.
  - discriminate.
Defined.

(** Two estimates in a row: one request to tiktoken. *)
Example second_estimate_from_cache :
  match Tokenizer.estimate_tokens sample_encoding_for_model (field_defaults "key")
          "four" None fresh_encoders with
  | Some (_, st') =>
      match Tokenizer.estimate_tokens sample_encoding_for_model (field_defaults "key")
              "sixteen" None st' with
      | Some (n2, st2) => n2 = 7 /\ Tokenizer.requested st2 = "gpt-4o" :: nil
      | None => False
      end
  | None => False
  end.
Proof. vm_compute. split; reflexivity. Qed.

(** X15 for the sample service, whose tokenizer counts characters. *)
Lemma estimate_tokens_refines_witness :
  exists st',
    Tokenizer.estimate_tokens sample_encoding_for_model (field_defaults "key")
      "four" None fresh_encoders
    = Some (Accounting.estimate_tokens (sample_env SCORE_05) "four", st')
    /\ Tokenizer.coherent sample_encoding_for_model st'.
Proof.
  eapply (estimate_tokens_refines sample_encoding_for_model (field_defaults "key")
            (sample_env SCORE_05)).
  - apply fresh_encoders_coherent.
  - reflexivity.
  - intros t. simpl. rewrite length_map. induction t as [ | c t IH]; simpl; congruence.
Defined.

(** ** The state as a dictionary *)

Section MissingKeys.

Implicit Types (s : AgentState) (state : Raw.RawState).

(** On a dictionary with every key set, the router, the finalizer and the
    ledger consumption read no default: they compute what the functions on
    the record compute. *)
Lemma raw_agrees_with_record s name cost :
  Raw.should_continue (Raw.of_state s) = should_continue s
  /\ Raw.finalize_node (Raw.of_state s) = Raw.of_state (finalize_node s)
  /\ Raw.consume_tokens (Raw.of_state s) name cost
     = Raw.of_state (consume_tokens s name cost).
Proof. repeat split. Qed.

(** X16: the defaults of [state.get].  Without [remaining_tokens] the router
    always answers summarize; without [quality_score] it never answers end;
    without [max_steps] it stops looping at five steps; without [status] it
    treats the state as not degraded.  Consuming from a state without ledger
    keys creates both, with nothing remaining and the cost as only entry;
    finalizing a state without a draft stores the empty answer. *)
Theorem missing_keys_defaults state name cost :
  (Raw.k_remaining_tokens state = None -> Raw.should_continue state = GoSummarize)
  /\ (Raw.k_quality_score state = None -> Raw.should_continue state <> GoEnd)
  /\ (Raw.k_max_steps state = None ->
      Raw.should_continue state = GoLoop -> default 0 (Raw.k_step_count state) < 5)
  /\ (Raw.k_status state = None ->
      Raw.should_continue state
      = Raw.should_continue
          (Raw.mkRaw (Raw.k_user_query state) (Raw.k_plan state)
             (Raw.k_retrieved_chunks state) (Raw.k_draft_answer state)
             (Raw.k_final_answer state) (Raw.k_total_token_budget state)
             (Raw.k_remaining_tokens state) (Raw.k_tokens_used state)
             (Raw.k_step_count state) (Raw.k_max_steps state)
             (Raw.k_quality_score state) (Some "INIT")))
  /\ (Raw.k_remaining_tokens state = None ->
      Raw.k_tokens_used state = None ->
      Raw.k_remaining_tokens (Raw.consume_tokens state name cost) = Some 0
      /\ Raw.k_tokens_used (Raw.consume_tokens state name cost)
         = Some {[name := Z.max 0 cost]})
  /\ (Raw.k_draft_answer state = None ->
      Raw.k_final_answer (Raw.finalize_node state) = Some EmptyString
      /\ Raw.k_status (Raw.finalize_node state) = Some "COMPLETED").
Proof.
  unfold Raw.should_continue.
  split; [ | split; [ | split; [ | split; [ | split]]]].
  - intros ->. simpl. destruct (String.prefix _ _); reflexivity.
  - intros ->. simpl.
    destruct (String.prefix _ _); [discriminate | ].
    destruct (_ <=? _); [discriminate | ].
    destruct (_ <=? _); discriminate.
  - intros ->. simpl.
    destruct (String.prefix _ _); [discriminate | ].
    destruct (_ <=? _); [discriminate | ].
    destruct (fge _ _); [discriminate | ].
    destruct (Z.leb_spec 5 (default 0 (Raw.k_step_count state))); [discriminate | ].
    intros _. lia.
  - intros ->. reflexivity.
  - intros Hrem Hused. unfold Raw.consume_tokens. rewrite Hrem, Hused. simpl.
    split; [f_equal; lia | reflexivity].
  - intros Hdraft. unfold Raw.finalize_node. simpl. rewrite Hdraft.
    split; reflexivity.
Qed.

End MissingKeys.

(** X16 on the empty dictionary. *)
Lemma missing_keys_defaults_witness :
  Raw.should_continue Raw.empty_state = GoSummarize
  /\ Raw.k_remaining_tokens (Raw.consume_tokens Raw.empty_state "planner" 150) = Some 0
  /\ Raw.k_tokens_used (Raw.consume_tokens Raw.empty_state "planner" 150)
     = Some {["planner" := Z.max 0 150]}.
Proof.
  destruct (missing_keys_defaults Raw.empty_state "planner" 150)
    as (Hrouter & _ & _ & _ & Hconsume & _).
  split; [apply Hrouter; reflexivity | ].
  apply Hconsume; reflexivity.
Defined.

(** ** More on the retriever and the critic *)

Section StageDetails.

Context (env : Env).

Implicit Types (s : AgentState) (log : list Call).

(** X17: a search that comes back empty costs nothing: the chunk list is
    empty and [remaining_tokens] is as before, yet the ledger gets a
    [retriever] entry (of 0 when there was none). *)
Theorem retriever_empty_result_is_free s log :
  let affordable := remaining_tokens s - MIN_GENERATION_BUDGET in
  let top_k := Z.min (Z.max 1 (affordable / TOKENS_PER_CHUNK)) 10 in
  0 < affordable ->
  similarity_search env log (user_query s) top_k = nil ->
  exists s',
    retriever_node env s log = Returns (s', log ++ SearchCall (user_query s) top_k :: nil)
    /\ retrieved_chunks s' = nil
    /\ remaining_tokens s' = remaining_tokens s
    /\ tokens_used s' !! "retriever" = Some (used (tokens_used s) "retriever")
    /\ sum_values (tokens_used s') = sum_values (tokens_used s).
Proof.
  cbv zeta. intros Hok Hempty.
  unfold retriever_node, bind, ret, search.
  destruct (Z.leb_spec (remaining_tokens s - MIN_GENERATION_BUDGET) 0) as [Hb | _]; [lia | ].
  rewrite Hempty. cbn [list_truthy].
  eexists. split; [reflexivity | ]. split; [reflexivity | ].
  split; [rewrite consume_tokens_remaining; simpl; unfold MIN_GENERATION_BUDGET in Hok; lia | ].
  split.
  - rewrite consume_tokens_used, lookup_insert_eq. simpl. f_equal. lia.
  - rewrite consume_tokens_sum. simpl. lia.
Qed.

(** X18: the number of chunks asked for, priced at 400 tokens each, fits the
    affordable budget whenever that budget covers one chunk; below one chunk's
    worth the retriever still asks for one chunk, and from 4000 tokens on it
    asks for ten. *)
Theorem retriever_nominal_fit s log :
  let affordable := remaining_tokens s - MIN_GENERATION_BUDGET in
  0 < affordable ->
  exists s' k,
    retriever_node env s log = Returns (s', log ++ SearchCall (user_query s) k :: nil)
    /\ (TOKENS_PER_CHUNK <= affordable -> k * TOKENS_PER_CHUNK <= affordable)
    /\ (affordable < TOKENS_PER_CHUNK -> k = 1)
    /\ (10 * TOKENS_PER_CHUNK <= affordable -> k = 10).
Proof.
  cbv zeta. intros Hok.
  destruct (retriever_funded env s log Hok) as (chunks & cost & E).
  eexists _, _. split; [exact E | ].
  unfold TOKENS_PER_CHUNK.
  set (a := remaining_tokens s - MIN_GENERATION_BUDGET) in *.
  pose proof (Z.div_mod a 400 ltac:(lia)) as Hdiv.
  pose proof (Z.mod_pos_bound a 400 ltac:(lia)) as Hmod.
  repeat split; intros; lia.
Qed.

(** X19: whenever the critic returns, the score it stored is a number
    between 0 and 1, whatever the service replied (an out-of-range number, an
    infinity or NaN included); below its budget it stores the default without
    a call. *)
Theorem critic_score_range s log s' log' :
  critic_node env s log = Returns (s', log') ->
  (exists q, quality_score s' = FFin q /\ (0 <= q <= 1)%Q)
  /\ (remaining_tokens s < CRITIC_REQUIRED_BUDGET ->
      quality_score s' = DEFAULT_SCORE /\ log' = log).
Proof.
  intros Hrun. split; [exact (critic_score_unit_interval env s log s' log' Hrun) | ].
  intros Hlow. rewrite critic_degraded in Hrun by exact Hlow.
  injection Hrun as <- <-. split; reflexivity.
Qed.


End StageDetails.

(** X17 in front of a vector store that finds nothing. *)
Lemma retriever_empty_result_is_free_witness :
  exists s',
    retriever_node barren_env (initialize_state "q" 5000 5) nil
    = Returns (s', SearchCall "q" 5 :: nil)
    /\ retrieved_chunks s' = nil
    /\ remaining_tokens s' = 5000
    /\ tokens_used s' !! "retriever" = Some 0
    /\ sum_values (tokens_used s') = sum_values (∅ : gmap string Z).
Proof.
  apply (retriever_empty_result_is_free barren_env (initialize_state "q" 5000 5) nil).
  - reflexivity.
  - reflexivity.
Defined.

(** X18 with 3100 tokens left: 100 affordable, one chunk asked for. *)
Lemma retriever_nominal_fit_witness :
  exists s' k,
    retriever_node (sample_env SCORE_05) (initialize_state "q" 3100 5) nil
    = Returns (s', SearchCall "q" k :: nil)
    /\ k = 1.
Proof.
  destruct (retriever_nominal_fit (sample_env SCORE_05) (initialize_state "q" 3100 5) nil)
    as (s' & k & Hrun & _ & Hone & _); [reflexivity | ].
  exists s', k. split; [exact Hrun | ]. apply Hone. reflexivity.
Defined.

(** X19 on a funded critic whose service answers 0.9. *)
Lemma critic_score_range_witness :
  exists s' log' q,
    critic_node (sample_env SCORE_09) (initialize_state "q" 10000 5) nil
    = Returns (s', log')
    /\ quality_score s' = FFin q
    /\ (0 <= q <= 1)%Q.
Proof.
  destruct (critic_node (sample_env SCORE_09) (initialize_state "q" 10000 5) nil)
    as [[s' log'] | exc] eqn:E.
  - destruct (critic_score_range (sample_env SCORE_09) _ _ _ _ E) as ((q & Hq & Hrange) & _).
    exists s', log', q. split; [reflexivity | split; assumption].
  - vm_compute in E. discriminate E.
Defined.

